(** * pysimm: the antechamber front end and the hybrid MC/MD loop

    A shallow embedding of [pysimm/amber.py] ([calc_charges],
    [get_forcefield_types]) and [pysimm/apps/mc_md.py] ([mc_md]), with the
    properties of the repository's design notes stated over it.

    Conventions.  Python strings are [string]s over ASCII; Python [int]s are
    [Z]; Python [float]s are IEEE binary64 values ([PrimFloat.float]) that are
    only carried around, never computed with.  A call that can raise returns
    an [Outcome]; calls to the external engines, to [print] and to the file
    system are recorded in a trace of events, oldest first. *)

From Stdlib Require Import ZArith String Ascii List Bool Lia.
From Stdlib Require Import DecimalString DecimalZ DecimalPos DecimalFacts.
From Stdlib Require Import PrimFloat SpecFloat FloatOps.
From stdpp Require Import base option list gmap strings.

#[local] Open Scope Z_scope.


(** ** Python built-ins used by the two modules *)

Module Py.

(** Exceptions the embedded code can run into. *)
Inductive PyExn :=
| IndexError        (* [xs[i]] out of range *)
| ValueError        (* [int(s)], [float(s)] on a malformed string *)
| TypeError         (* [int(None)], [zip] over a non-iterable, ... *)
| AttributeError    (* attribute of [None], attribute missing from a module *)
| LookupError       (* a container has no item under the given tag *)
| EngineError.      (* an external collaborator raised *)

(** How a call ends: it returns, calls [exit(code)], or raises. *)
Inductive Outcome (A : Type) :=
| Returned (a : A)
| Exited (code : Z)
| Raised (e : PyExn).
Arguments Returned {A} a.
Arguments Exited {A} code.
Arguments Raised {A} e.

Definition nl : string := String (ascii_of_nat 10) "".

(** [str.isspace] on ASCII: TAB..CR, FS..US and the blank. *)
Definition is_space (c : ascii) : bool :=
  let n := nat_of_ascii c in
  ((9 <=? n)%nat && (n <=? 13)%nat) || ((28 <=? n)%nat && (n <=? 32)%nat).

(** [s.split()]: the maximal runs of non-blank characters, in order. [acc]
    is the run being read. *)
Fixpoint tokens (s acc : string) : list string :=
  match s with
  | EmptyString => if String.eqb acc "" then [] else [acc]
  | String c s' =>
      if is_space c
      then (if String.eqb acc "" then tokens s' "" else acc :: tokens s' "")
      else tokens s' (acc +:+ String c "")
  end.

Definition split (s : string) : list string := tokens s "".

(** [xs[-1]] and [xs[-2]]. *)
Definition last_item {A} (xs : list A) : option A := last xs.

Definition penultimate {A} (xs : list A) : option A :=
  match rev xs with
  | _ :: x :: _ => Some x
  | _ => None
  end.

(** [str(n)] for an [int]. *)
Definition str (z : Z) : string := NilZero.string_of_int (Z.to_int z).

Definition is_digit (c : ascii) : bool :=
  let n := nat_of_ascii c in (48 <=? n)%nat && (n <=? 57)%nat.

(** [int(s)] for a non-empty string of ASCII digits. *)
Definition int_of_digits (s : string) : option Z :=
  Z.of_uint <$> NilZero.uint_of_string s.

(** Underscores are allowed between two digits ([int('1_000')]); the result
    is the digit string without them, [None] when one is misplaced. *)
Fixpoint drop_underscores (s : string) (after_digit : bool) : option string :=
  match s with
  | EmptyString => if after_digit then Some "" else None
  | String c s' =>
      if is_digit c then String c <$> drop_underscores s' true
      else if Ascii.eqb c "_" then
        (if after_digit then drop_underscores s' false else None)
      else None
  end.

(** [int(s)]: surrounding blanks, one optional sign, decimal digits.
    [None] stands for [ValueError]. *)
Definition int_of_str (s : string) : option Z :=
  match split s with
  | [t] =>
      match t with
      | String "-" r => Z.opp <$> (drop_underscores r false ≫= int_of_digits)
      | String "+" r => drop_underscores r false ≫= int_of_digits
      | _ => drop_underscores t false ≫= int_of_digits
      end
  | _ => None
  end.

(** [re.match('\A\d+', s).group()]: the maximal leading run of digits;
    [None] (on which [.group()] raises [AttributeError]) when it is empty. *)
Fixpoint leading_digits (s : string) : string :=
  match s with
  | EmptyString => ""
  | String c s' => if is_digit c then String c (leading_digits s') else ""
  end.

Definition re_match_digits (s : string) : option string :=
  match leading_digits s with
  | EmptyString => None
  | d => Some d
  end.

Fixpoint all_digits (s : string) : bool :=
  match s with
  | EmptyString => true
  | String c s' => is_digit c && all_digits s'
  end.

(** [fnmatch] for patterns made of literal characters, [*] and [?] (the
    patterns built by [mc_md] contain no bracket). *)
Fixpoint fnmatch (pat : string) : string -> bool :=
  match pat with
  | EmptyString => fun name => String.eqb name ""
  | String p pat' =>
      if Ascii.eqb p "*" then
        fix star (name : string) : bool :=
          fnmatch pat' name ||
          match name with
          | EmptyString => false
          | String _ name' => star name'
          end
      else if Ascii.eqb p "?" then
        fun name =>
          match name with
          | EmptyString => false
          | String _ name' => fnmatch pat' name'
          end
      else
        fun name =>
          match name with
          | EmptyString => false
          | String c name' => Ascii.eqb p c && fnmatch pat' name'
          end
  end.

(** [glob] matches a name against the last component of its pattern, and a
    name that starts with a dot only when the pattern does too. *)
Definition is_hidden (s : string) : bool := String.prefix "." s.

Definition glob_match (pat name : string) : bool :=
  (is_hidden pat || negb (is_hidden name)) && fnmatch pat name.

(** [os.path.join(a, b)] on POSIX. *)
Definition path_join (a b : string) : string :=
  if String.prefix "/" b then b
  else if String.eqb a "" then b
  else if String.eqb (substring (String.length a - 1) 1 a) "/" then a +:+ b
  else a +:+ "/" +:+ b.

End Py.


(** ** pysimm/amber.py *)

Module Amber.
Import Py.

(** A force-field particle type: its name and its parameters (opaque). *)
Record ParticleType := mkParticleType {
  pt_name : string;
  pt_params : Z;
}.

(** A particle, as far as the module touches it. *)
Record Particle := mkParticle {
  p_x : float;
  p_y : float;
  p_z : float;
  p_charge : option float;
  p_type : option ParticleType;
}.

(** [s.particles] maps tags to particles; [s.particle_types] is the system's
    type registry, in insertion order. *)
Record System := mkSystem {
  particles : gmap Z Particle;
  particle_types : list ParticleType;
}.

(** The fallback force field [f]. *)
Record Forcefield := mkForcefield {
  ff_particle_types : list ParticleType;
}.

(** What the module does to its surroundings. *)
Inductive Event :=
| WritePdb (fname : string)               (* s.write_pdb(fname) *)
| Antechamber (cl : list string)          (* Popen(cl.split()).communicate() *)
| WarningPrint (msg : string)
| ErrorPrint (msg : string)
| Print (msg : string)
| Remove (fname : string).                (* os.remove(fname) succeeded *)

(** Modelled from the spec: [ItemContainer.get(name)] of pysimm.utils, which
    is not part of the sources at hand; the items whose name is exactly
    [name] (matching is exact-string and case-sensitive), in registry
    order. *)
Definition get (name : string) (reg : list ParticleType) : list ParticleType :=
  filter (fun pt => pt_name pt = name) reg.

(** Modelled from the spec: [ItemContainer.add(item)] registers the item and
    hands it back. *)
Definition add (pt : ParticleType) (reg : list ParticleType) : list ParticleType :=
  reg ++ [pt].

Definition set_charge (c : float) (p : Particle) : Particle :=
  mkParticle (p_x p) (p_y p) (p_z p) (Some c) (p_type p).

Definition set_type (pt : ParticleType) (p : Particle) : Particle :=
  mkParticle (p_x p) (p_y p) (p_z p) (p_charge p) (Some pt).

(** [s.particles[tag].attr = v]: the container has to hold the particle. *)
Definition update_particle (upd : Particle -> Particle) (tag : Z) (s : System)
  : option System :=
  match particles s !! tag with
  | Some p => Some (mkSystem (<[tag := upd p]> (particles s)) (particle_types s))
  | None => None
  end.

Definition ANTECHAMBER_EXEC_default : string := "None".

Definition antechamber_cl (exec flag arg : string) : list string :=
  split (exec +:+ " -fi pdb -i pysimm.tmp.pdb -fo ac -o pysimm.tmp.ac "
              +:+ flag +:+ " " +:+ arg).

Section Antechamber.

(** [float(s)]; [None] is [ValueError]. *)
Variable py_float : string -> option float.
(** The value of the environment variable ANTECHAMBER_EXEC, formatted. *)
Variable ANTECHAMBER_EXEC : string.

(** [cleanup_antechamber]: [present] lists the files of the working
    directory, of which those named by the function are removed; a name that
    cannot be removed is reported and skipped. [ante_files] is
    [glob.glob('ANTECHAMBER*')]. *)
Definition cleanup_fnames (present : list string) : list string :=
  ["pysimm.tmp.pdb"; "pysimm.tmp.ac"] ++ ["ATOMTYPE.INF"] ++
  filter (fun n => glob_match "ANTECHAMBER*" n = true) present.

Definition cleanup_antechamber (present : list string) : list Event :=
  map (fun fname =>
         if bool_decide (fname ∈ present) then Remove fname
         else Print ("problem removing " +:+ fname +:+ " during cleanup"))
      (cleanup_fnames present).

(** One turn of the [while] loop of [calc_charges], on the fields of a row
    whose first field is ATOM. *)
Definition charge_row (s : System) (fields : list string)
  : System * Outcome unit :=
  match fields !! 1%nat with
  | None => (s, Raised IndexError)
  | Some f1 =>
      match int_of_str f1 with
      | None => (s, Raised ValueError)
      | Some tag =>
          match penultimate fields ≫= py_float with
          | None => (s, Raised ValueError)
          | Some charge =>
              match update_particle (set_charge charge) tag s with
              | Some s' => (s', Returned ())
              | None => (s, Raised LookupError)
              end
          end
      end
  end.

(** The [while line.split()[0] == 'ATOM'] loop; the head of [lines] is the
    line just read, and past the end of the file [readline] yields [''],
    whose [split()] has no first field. *)
Fixpoint charge_loop (s : System) (lines : list string) : System * Outcome unit :=
  match lines with
  | [] => (s, Raised IndexError)
  | line :: rest =>
      match split line with
      | [] => (s, Raised IndexError)
      | f0 :: fs =>
          if String.eqb f0 "ATOM" then
            match charge_row s (f0 :: fs) with
            | (s', Returned _) => charge_loop s' rest
            | (s', Exited c) => (s', Exited c)
            | (s', Raised e) => (s', Raised e)
            end
          else (s, Returned ())
      end
  end.

(** [calc_charges(s, charge_method, cleanup)]. [ac] holds the lines of
    pysimm.tmp.ac as antechamber left them, [present] the files of the
    working directory. The result is the system as mutated in place, the
    events in order, and how the call ended. *)
Definition calc_charges (s : System) (charge_method : string) (cleanup : bool)
    (ac present : list string) : System * list Event * Outcome unit :=
  let log := [WritePdb "pysimm.tmp.pdb";
              Antechamber (antechamber_cl ANTECHAMBER_EXEC "-c" charge_method)] in
  match charge_loop s (drop 2 ac) with
  | (s', Returned _) =>
      (s', log ++ (if cleanup then cleanup_antechamber present else []), Returned ())
  | (s', Exited c) => (s', log, Exited c)
  | (s', Raised e) => (s', log, Raised e)
  end.

(** The locals of [get_forcefield_types] together with the system and the
    events so far. *)
Record TypingState := mkTypingState {
  st_sys : System;
  c5_c6_flag : bool;
  warning_pdb_flag : bool;
  missing_types : gset string;
  st_log : list Event;
}.

Definition emit (e : Event) (st : TypingState) : TypingState :=
  mkTypingState (st_sys st) (c5_c6_flag st) (warning_pdb_flag st)
                (missing_types st) (st_log st ++ [e]).

Definition with_sys (s : System) (st : TypingState) : TypingState :=
  mkTypingState s (c5_c6_flag st) (warning_pdb_flag st)
                (missing_types st) (st_log st).

Definition set_c5_c6_flag (st : TypingState) : TypingState :=
  mkTypingState (st_sys st) true (warning_pdb_flag st)
                (missing_types st) (st_log st).

Definition set_warning_pdb_flag (st : TypingState) : TypingState :=
  mkTypingState (st_sys st) (c5_c6_flag st) true
                (missing_types st) (st_log st).

Definition add_missing (type_name : string) (st : TypingState) : TypingState :=
  mkTypingState (st_sys st) (c5_c6_flag st) (warning_pdb_flag st)
                ({[type_name]} ∪ missing_types st) (st_log st).

Definition not_found_msg (type_name types : string) : string :=
  "Atom type " +:+ type_name +:+ " was not found in " +:+ types +:+ nl.

Definition c5_c6_msg (type_name : string) : string :=
  "Reading type as " +:+ type_name +:+ ", writing type as c3" +:+ nl +:+
  "    c5/c6 is currently replacing c3 but not yet available" +:+ nl +:+
  "    Read more at: http://archive.ambermd.org/202307/0021.html" +:+ nl.

Definition missing_pdb_msg : string :=
  "writing Missing_Types.pdb. Please analyze and determine potential issues due to missing types"
  +:+ nl.

Definition cannot_find_msg (type_name : string) : string :=
  "cannot find type " +:+ type_name +:+ " in system or forcefield".

(** [s.particles[tag].type = pt], the right-hand side being evaluated
    already. *)
Definition bind_type (tag : Z) (pt : ParticleType) (st : TypingState)
  : TypingState * Outcome unit :=
  match update_particle (set_type pt) tag (st_sys st) with
  | Some s' => (with_sys s' st, Returned ())
  | None => (st, Raised LookupError)
  end.

(** The [elif f:] branch for one row, statement by statement. First:
    [if len(pt) == 0: if type_name not in missing_types: ...]. *)
Definition note_missing (types type_name : string) (pt : list ParticleType)
    (st : TypingState) : TypingState :=
  if (length pt =? 0)%nat && negb (bool_decide (type_name ∈ missing_types st))
  then add_missing type_name
         (emit (WarningPrint (not_found_msg type_name types)) st)
  else st.

(** Second: [if types == 'gaff2' and type_name in ['c5', 'c6']: ...
    elif len(pt) == 0: ...]; the result carries the value of [pt]. *)
Definition substitute_or_snapshot (types : string) (f : Forcefield)
    (type_name : string) (pt : list ParticleType) (st : TypingState)
  : TypingState * list ParticleType :=
  if String.eqb types "gaff2" && bool_decide (type_name ∈ ["c5"; "c6"]) then
    if negb (c5_c6_flag st) then
      (set_c5_c6_flag (emit (WarningPrint (c5_c6_msg type_name)) st),
       get "c3" (ff_particle_types f))
    else (st, pt)
  else if (length pt =? 0)%nat then
    let st' :=
      if negb (warning_pdb_flag st)
      then set_warning_pdb_flag (emit (WarningPrint missing_pdb_msg) st)
      else st in
    (emit (WritePdb "Missing_Types.pdb") st', pt)
  else (st, pt).

(** Third: [if pt: s.particles[tag].type = s.particle_types.add(pt[0].copy())];
    the copy is registered before the particle is looked up. *)
Definition bind_copy (tag : Z) (pt : list ParticleType) (st : TypingState)
  : TypingState * Outcome unit :=
  match pt with
  | pt0 :: _ =>
      let s := st_sys st in
      bind_type tag pt0
        (with_sys (mkSystem (particles s) (add pt0 (particle_types s))) st)
  | [] => (st, Returned ())
  end.

Definition type_from_forcefield (types : string) (f : Forcefield)
    (tag : Z) (type_name : string) (st : TypingState)
  : TypingState * Outcome unit :=
  let pt := get type_name (ff_particle_types f) in
  let st1 := note_missing types type_name pt st in
  let '(st2, pt2) := substitute_or_snapshot types f type_name pt st1 in
  bind_copy tag pt2 st2.

(** One turn of the [while] loop of [get_forcefield_types]. *)
Definition type_row (types : string) (f : option Forcefield)
    (st : TypingState) (fields : list string) : TypingState * Outcome unit :=
  match fields !! 1%nat with
  | None => (st, Raised IndexError)
  | Some f1 =>
      match int_of_str f1 with
      | None => (st, Raised ValueError)
      | Some tag =>
          match last_item fields with
          | None => (st, Raised IndexError)
          | Some type_name =>
              match get type_name (particle_types (st_sys st)) with
              | pt0 :: _ => bind_type tag pt0 st
              | [] =>
                  match f with
                  | Some ff => type_from_forcefield types ff tag type_name st
                  | None =>
                      (emit (ErrorPrint (cannot_find_msg type_name)) st, Returned ())
                  end
              end
          end
      end
  end.

Fixpoint type_loop (types : string) (f : option Forcefield)
    (st : TypingState) (lines : list string) : TypingState * Outcome unit :=
  match lines with
  | [] => (st, Raised IndexError)
  | line :: rest =>
      match split line with
      | [] => (st, Raised IndexError)
      | f0 :: fs =>
          if String.eqb f0 "ATOM" then
            match type_row types f st (f0 :: fs) with
            | (st', Returned _) => type_loop types f st' rest
            | (st', Exited c) => (st', Exited c)
            | (st', Raised e) => (st', Raised e)
            end
          else (st, Returned ())
      end
  end.

(** [get_forcefield_types(s, types, f)], [ac] being the lines of
    pysimm.tmp.ac. *)
Definition get_forcefield_types (s : System) (types : string)
    (f : option Forcefield) (ac : list string) : TypingState * Outcome unit :=
  let st0 :=
    mkTypingState s false false ∅
      [WritePdb "pysimm.tmp.pdb";
       Antechamber (antechamber_cl ANTECHAMBER_EXEC "-at" types)] in
  type_loop types f st0 (drop 2 ac).

End Antechamber.

(** Reading the events back. *)
Definition is_alias_warning (e : Event) : bool :=
  match e with
  | WarningPrint msg => String.prefix "Reading type as " msg
  | _ => false
  end.

Definition is_not_found_warning (name types : string) (e : Event) : bool :=
  match e with
  | WarningPrint msg => String.eqb msg (not_found_msg name types)
  | _ => false
  end.

Definition is_snapshot_write (e : Event) : bool :=
  match e with
  | WritePdb fname => String.eqb fname "Missing_Types.pdb"
  | _ => false
  end.

Definition is_snapshot_warning (e : Event) : bool :=
  match e with
  | WarningPrint msg => String.eqb msg missing_pdb_msg
  | _ => false
  end.

Definition count_events (P : Event -> bool) (log : list Event) : nat :=
  length (filter (fun e => P e = true) log).

(** The rows the loops walk over: the rows from the third line on, up to
    the first whose first field is not ATOM. *)
Definition is_atom_row (line : string) : bool :=
  match split line with
  | f0 :: _ => String.eqb f0 "ATOM"
  | [] => false
  end.

Fixpoint atom_block (lines : list string) : list string :=
  match lines with
  | [] => []
  | line :: rest => if is_atom_row line then line :: atom_block rest else []
  end.

Definition row_tag (line : string) : option Z :=
  split line !! 1%nat ≫= int_of_str.

Definition row_type_name (line : string) : option string :=
  last_item (split line).

(** The names held by a registry. *)
Definition names (reg : list ParticleType) : list string := map pt_name reg.

(** [types == 'gaff2' and type_name in ['c5', 'c6']]. *)
Definition is_alias (types name : string) : bool :=
  String.eqb types "gaff2" && bool_decide (name ∈ ["c5"; "c6"]).

(** A type name that neither the system [s] nor the force field [ff] knows
    and that is no deprecated alias; a row reporting such a name. *)
Definition is_missing_name (types : string) (s : System) (ff : Forcefield)
    (name : string) : bool :=
  bool_decide (name ∉ names (particle_types s)) &&
  bool_decide (name ∉ names (ff_particle_types ff)) &&
  negb (is_alias types name).

Definition is_missing_row (types : string) (s : System) (ff : Forcefield)
    (line : string) : bool :=
  match row_type_name line with
  | Some name => is_missing_name types s ff name
  | None => false
  end.

(** Sample data: [float] on the few literals of the sample files; a blank
    particle; two-line headers as antechamber writes them. *)
Definition sample_float (s : string) : option float :=
  if String.eqb s "0.5" then Some 0.5%float
  else if String.eqb s "-0.25" then Some (-0.25)%float
  else if String.eqb s "0.0" then Some 0%float
  else None.

Definition blank_particle : Particle :=
  mkParticle 0%float 0%float 0%float None None.

Definition three_particles : System :=
  mkSystem (<[1 := blank_particle]> (<[2 := blank_particle]> (<[3 := blank_particle]> ∅))) [].

Definition ac_header : list string :=
  ["CHARGE      0.00 ( 0 )"; "Formula: C2 H6"].

Definition ac_two_charges : list string :=
  ac_header ++
  ["ATOM      1  C1  MOL     1       0.000   0.000   0.000  0.5        c3";
   "ATOM      2  C2  MOL     1       1.500   0.000   0.000  -0.25        c3";
   "BOND    1    1    2    1     C1   C2"].

Definition c3_type : ParticleType := mkParticleType "c3" 1.
Definition gaff2_without_c6 : Forcefield := mkForcefield [c3_type].

Definition ac_two_c6 : list string :=
  ac_header ++
  ["ATOM      1  C1  MOL     1       0.000   0.000   0.000  0.0        c6";
   "ATOM      2  C2  MOL     1       1.500   0.000   0.000  0.0        c6";
   "BOND    1    1    2    1     C1   C2"].

Definition ac_two_missing : list string :=
  ac_header ++
  ["ATOM      1  X1  MOL     1       0.000   0.000   0.000  0.0        zz";
   "ATOM      2  X2  MOL     1       1.500   0.000   0.000  0.0        zz";
   "BOND    1    1    2    1     X1   X2"].

Definition charges_of_two_rows : System * list Event * Outcome unit :=
  calc_charges sample_float "antechamber" three_particles "bcc" true
    ac_two_charges [].

Definition typing_of_two_c6 : TypingState * Outcome unit :=
  get_forcefield_types "antechamber" three_particles "gaff2"
    (Some gaff2_without_c6) ac_two_c6.

Definition typing_of_two_missing : TypingState * Outcome unit :=
  get_forcefield_types "antechamber" three_particles "gaff"
    (Some gaff2_without_c6) ac_two_missing.

End Amber.

(** ** pysimm/apps/mc_md.py *)

Module McMd.
Import Py.

(** *** Data *)

(** A system, as far as [mc_md] looks into it: the positions by tag, the
    box, and references to its [ParticleType] objects. The objects live in
    a store shared by every system that refers to them. *)
Record System := mkSystem {
  particles : gmap Z (float * float * float);
  dim : list float;
  particle_types : list nat;
}.

(** The values found in the arguments and in the two option bundles. *)
#[local] Unset Elimination Schemes.
Inductive PyVal :=
| VNone
| VBool (b : bool)
| VInt (z : Z)
| VFloat (f : float)
| VStr (s : string)
| VList (l : list PyVal)
| VDict (kv : list (string * PyVal))      (* a dict in insertion order *)
| VSys (s : System).                      (* an instance of system.System *)
#[local] Set Elimination Schemes.

(** The interpreter: [types.ListType] exists in Python 2 only. *)
Inductive PyVersion := Py2 | Py3.

(** Truth value of a Python object; instances of [system.System] define
    neither [__bool__] nor [__len__] as far as [mc_md] relies on them. *)
Definition truthy (v : PyVal) : bool :=
  match v with
  | VNone => false
  | VBool b => b
  | VInt z => negb (z =? 0)
  | VFloat f => negb (PrimFloat.eqb f 0%float)
  | VStr s => negb (String.eqb s "")
  | VList l => negb (bool_decide (length l = 0%nat))
  | VDict kv => negb (bool_decide (length kv = 0%nat))
  | VSys _ => true
  end.

(** [len(v)]; [None] is [TypeError]. *)
Definition py_len (v : PyVal) : option nat :=
  match v with
  | VStr s => Some (String.length s)
  | VList l => Some (length l)
  | VDict kv => Some (length kv)
  | _ => None
  end.

(** [iter(v)]; [None] is [TypeError]. *)
Definition py_iter (v : PyVal) : option (list PyVal) :=
  match v with
  | VList l => Some l
  | VStr s => Some (map (fun c => VStr (String c "")) (list_ascii_of_string s))
  | VDict kv => Some (map (fun '(k, _) => VStr k) kv)
  | _ => None
  end.

(** [int(v)]: a float is truncated towards zero, a string parsed. *)
Definition int_of_float (f : float) : option Z :=
  match Prim2SF f with
  | S754_zero _ => Some 0
  | S754_finite neg m e =>
      let a := if 0 <=? e then Z.pos m * 2 ^ e else Z.pos m / 2 ^ (- e) in
      Some (if neg then - a else a)
  | S754_infinity _ | S754_nan => None
  end.

Definition py_int (v : PyVal) : Outcome Z :=
  match v with
  | VInt z => Returned z
  | VBool b => Returned (if b then 1 else 0)
  | VFloat f => match int_of_float f with Some z => Returned z | None => Raised ValueError end
  | VStr s => match int_of_str s with Some z => Returned z | None => Raised ValueError end
  | _ => Raised TypeError
  end.

(** [v == None] *)
Definition is_None (v : PyVal) : bool :=
  match v with
  | VNone => true
  | _ => false
  end.

Definition dict_get (d : gmap string PyVal) (key : string) : PyVal :=
  default VNone (d !! key).

Definition dict_get_default (d : gmap string PyVal) (key : string) (dflt : PyVal) : PyVal :=
  default dflt (d !! key).

(** The keyword arguments [mc_md] reads. *)
Record Kwargs := mkKwargs {
  kw_mcmd_niter : option Z;
  kw_sim_folder : option string;
  kw_restart : option bool;
}.

(** The commands added to an [lmps.Simulation], in order. *)
Record MolecularDynamics := mkMolecularDynamics {
  md_name : string;
  md_ensemble : string;
  md_group : string;
  md_timestep : PyVal;
  md_length : option PyVal;
  md_temperature : PyVal;
  md_pressure : PyVal;
  md_run : bool;
  md_extra_keywords : list (string * string);
}.

Inductive SimCmd :=
| Init (cutoff special_bonds pair_modify : PyVal)
| Custom (text : string)                                  (* sim.add_custom *)
| Group (name style ids : string)
| OutputSettings (thermo : PyVal) (dump_filename : string) (dump_freq : Z)
| Velocity (style : string)
| AddMD (md : MolecularDynamics)                          (* sim.add *)
| AddMdMD (md : MolecularDynamics).                       (* sim.add_md *)

(** What a Monte-Carlo run leaves on its job: [tot_sst] and
    [mc_sst.made_ins]. *)
Record McResult := mkMcResult {
  tot_sst : System;
  made_ins : list Z;
}.

(** The arguments of [css.add_gcmc]; [job_type_names] are the names of the
    species' particle types as the store holds them when the job is built. *)
Record GcmcJob := mkGcmcJob {
  job_species : list System;
  job_type_names : list (list string);
  job_chem_pot : PyVal;
  job_is_rigid : PyVal;
  job_out_folder : string;
  job_props_file : string;
  job_props : gmap string PyVal;
}.

(** The calls that leave [mc_md], oldest first. *)
Inductive Event :=
| Print (msg : string)
| Remove (path : string)                               (* os.remove *)
| Wrap                                                 (* fs.wrap() *)
| NewCassandra (fixed_sst : PyVal)
| AddGcmc (job : GcmcJob)
| UpdSimulation (job : GcmcJob)                        (* run_queue[-1].upd_simulation() *)
| ReadLammps (path : string)
| CssRun (job : GcmcJob)                               (* css.run() *)
| WriteLammps (path : string) (s : System)
| SetEnv (name value : string)                         (* os.environ[name] = value *)
| NewSimulation (s : System) (print_to_screen : PyVal) (log : string)
| SimRun (job : list SimCmd) (np prefix : PyVal)       (* sim.run(...) *)
         (omp_num_threads : option string)             (* the variable at launch *)
         (result : option System)                      (* sim.system afterwards *)
| UnwrapGas
| WriteXyz (path : string) (s : System).

(** The surroundings: the listing of [sim_folder], the process environment,
    the names of the [ParticleType] objects, and the trace. *)
Record World := mkWorld {
  w_dir : list string;
  w_environ : gmap string string;
  w_type_names : gmap nat string;
  w_trace : list Event;
}.

(** The external collaborators, which the sources at hand only call. A
    result [None] stands for an exception raised inside the
    collaborator. *)
Record Engines := mkEngines {
  (** [System.wrap()] *)
  wrap : System -> System;
  (** [cassandra.Cassandra(fixed_sst).system] *)
  new_cassandra : PyVal -> System;
  (** [css.run()] on the current [css.system] and the job queued last: the
      new [css.system] and what the run leaves on the job *)
  css_run : System -> GcmcJob -> option (System * McResult);
  (** [job.upd_simulation()], which reads the files of the job's run *)
  upd_simulation : list string -> GcmcJob -> option McResult;
  (** [system.read_lammps(path)] *)
  read_lammps : list string -> string -> option System;
  (** [job.group_by_id(kind)[0]] *)
  group_by_id : GcmcJob -> option McResult -> string -> string;
  (** [sim.run(np=..., prefix=...)]: [sim.system] afterwards *)
  sim_run : System -> list SimCmd -> PyVal -> PyVal -> option System;
  (** [css.unwrap_gas()] on [css.system] *)
  unwrap_gas : System -> System;
}.

(** The locals of [mc_md] that the loop reads and writes. *)
Record Loop := mkLoop {
  l : Z;
  is_restart : bool;
  css_system : System;
  run_queue : list (GcmcJob * option McResult);
  mcp : gmap string PyVal;
  sim : option System;               (* [sim.system], [None] while [sim] is [None] *)
  prefix : PyVal;
}.

(** *** Effects *)

Definition M (A : Type) : Type := World -> World * Outcome A.

Definition ret {A} (a : A) : M A := fun w => (w, Returned a).

Definition bind {A B} (m : M A) (k : A -> M B) : M B :=
  fun w =>
    match m w with
    | (w', Returned a) => k a w'
    | (w', Exited c) => (w', Exited c)
    | (w', Raised e) => (w', Raised e)
    end.

Definition raise {A} (e : PyExn) : M A := fun w => (w, Raised e).
Definition exit {A} (code : Z) : M A := fun w => (w, Exited code).

Notation "'let*' x := m 'in' k" := (bind m (fun x => k))
  (at level 10, x pattern, m at level 100, k at level 200).
Notation "'do' m 'then' k" := (bind m (fun _ => k))
  (at level 10, m at level 100, k at level 200).

Definition emit (e : Event) : M unit :=
  fun w => (mkWorld (w_dir w) (w_environ w) (w_type_names w) (w_trace w ++ [e]),
            Returned ()).

Definition get_world : M World := fun w => (w, Returned w).

Definition set_dir (d : list string) : M unit :=
  fun w => (mkWorld d (w_environ w) (w_type_names w) (w_trace w), Returned ()).

Definition set_type_names (h : gmap nat string) : M unit :=
  fun w => (mkWorld (w_dir w) (w_environ w) h (w_trace w), Returned ()).

(** [os.environ[name] = value] *)
Definition setenv (name value : string) : M unit :=
  fun w => (mkWorld (w_dir w) (<[name := value]> (w_environ w))
                    (w_type_names w) (w_trace w ++ [SetEnv name value]),
            Returned ()).

Definition of_option {A} (e : PyExn) (o : option A) : M A :=
  match o with
  | Some a => ret a
  | None => raise e
  end.

Definition of_outcome {A} (o : Outcome A) : M A := fun w => (w, o).

(** A file appears in [sim_folder] under the base name [name]. *)
Definition dir_add (name : string) (d : list string) : list string :=
  if bool_decide (name ∈ d) then d else d ++ [name].

Definition create (name : string) : M unit :=
  fun w => (mkWorld (dir_add name (w_dir w)) (w_environ w) (w_type_names w) (w_trace w),
            Returned ()).

(** [glob.glob(os.path.join(sim_folder, pat))], as base names. *)
Definition glob (pat : string) (d : list string) : list string :=
  filter (fun name => glob_match pat name = true) d.

(** [os.remove(os.path.join(sim_folder, name))] *)
Definition remove (sim_folder name : string) : M unit :=
  fun w =>
    if bool_decide (name ∈ w_dir w) then
      (mkWorld (filter (fun n => n <> name) (w_dir w)) (w_environ w)
               (w_type_names w) (w_trace w ++ [Remove (path_join sim_folder name)]),
       Returned ())
    else (w, Raised LookupError).

Fixpoint for_each {A} (xs : list A) (body : A -> M unit) : M unit :=
  match xs with
  | [] => ret ()
  | x :: rest => do body x then for_each rest body
  end.

(** *** File names *)

Definition lmps_name (i : Z) : string := str i +:+ ".before_md.lmps".
Definition xyz_name (i : Z) : string := str i +:+ ".md_out.xyz".
Definition md_log_name (i : Z) : string := str i +:+ ".md.log".
Definition md_dump_name (i : Z) : string := str i +:+ ".md.dump".
Definition gcmc_run_name (i : Z) : string := str i +:+ ".gcmc".
Definition gcmc_props_name (i : Z) : string := str i +:+ ".gcmc_props.inp".

(** [lmps_fname.format(i)] and [xyz_fname.format(i)]; [sim_folder] is taken
    to hold no brace, so that [format] fills the one placeholder. *)
Definition lmps_fname (sim_folder : string) (i : Z) : string :=
  path_join sim_folder (lmps_name i).
Definition xyz_fname (sim_folder : string) (i : Z) : string :=
  path_join sim_folder (xyz_name i).

(** *** The restart scan (lines 46-55) *)

(** The [for f in glob.glob(lmps_fname.format('*'))] loop. *)
Fixpoint scan_checkpoints (found : list string) (l : Z) : Outcome Z :=
  match found with
  | [] => Returned l
  | f :: rest =>
      match re_match_digits f with
      | None => Raised AttributeError
      | Some d =>
          match int_of_digits d with
          | Some v => scan_checkpoints rest (Z.max l v)
          | None => Raised ValueError
          end
      end
  end.

Definition to_purge (l : Z) (d : list string) : list string :=
  glob (str (l + 1) +:+ ".*") d ++ glob (str l +:+ ".md*") d.

(** What the purge removes, and the listing it leaves. *)
Definition purge_events (sim_folder : string) (l : Z) (d : list string) : list Event :=
  map (fun name => Remove (path_join sim_folder name)) (to_purge l d).

Definition purged (l : Z) (d : list string) : list string :=
  filter (fun name => name ∉ to_purge l d) d.

Definition restart_scan (sim_folder : string) (is_restart : bool) : M Z :=
  if is_restart then
    let* w := get_world in
    let* l := of_outcome (scan_checkpoints (glob "*.before_md.lmps" (w_dir w)) 1) in
    do for_each (to_purge l (w_dir w)) (remove sim_folder) then
    ret l
  else ret 1.

(** *** The type names of the gases (lines 100-103) *)

Definition gas_suffix (gi : nat) : string := "_g" +:+ str (Z.of_nat gi + 1).

(** [for pt in g.particle_types: pt.name += '_g' + str(gi + 1)] *)
Definition rename_types (gi : nat) (g : System) (h : gmap nat string)
  : gmap nat string :=
  foldl (fun h pt => alter (fun name => name +:+ gas_suffix gi) pt h)
        h (particle_types g).

(** [for gi, g in enumerate(gases): ...], [gi] counting from [start]. *)
Fixpoint rename_gas_types_from (start : nat) (gases : list System)
    (h : gmap nat string) : gmap nat string :=
  match gases with
  | [] => h
  | g :: rest => rename_gas_types_from (S start) rest (rename_types start g h)
  end.

Definition rename_gas_types (gases : list System) (h : gmap nat string)
  : gmap nat string :=
  rename_gas_types_from 0 gases h.

(** The names a system's particle types go by in the store. *)
Definition type_names_of (h : gmap nat string) (g : System) : list string :=
  omap (fun pt => h !! pt) (particle_types g).

(** *** The description of the MD run (lines 137-220) *)

Definition nonrig_group_name : string := "nonrigid_b".
Definition rig_group_name : string := "rigid_b".

Definition neighbor_settings : string :=
  "neighbor 2.0 bin " +:+ nl +:+ "neigh_modify delay 0 every 1 check yes "
  +:+ nl +:+ "run_style verlet".

Section Job.

(** ['{:}'.format(v)] *)
Variable format_val : PyVal -> string.

Variable mdp : gmap string PyVal.
(** [rigid_mols], the ids of the rigid molecules; [''] when there is none. *)
Variable rigid_mols : string.

Definition has_rigid : bool := negb (String.eqb rigid_mols "").

Definition rigid_md (name : string) (timestep : PyVal) : MolecularDynamics :=
  mkMolecularDynamics name "rigid/nvt/small molecule" rig_group_name timestep
    (Some (dict_get mdp "length")) (dict_get mdp "temp") (dict_get mdp "pressure")
    false [].

Definition main_md (name : string) (timestep : PyVal) : MolecularDynamics :=
  mkMolecularDynamics name "npt"
    (if has_rigid then nonrig_group_name else "all") timestep None
    (dict_get mdp "temp") (dict_get mdp "pressure") false
    (if has_rigid then [("dilate", "all")] else []).

(** The body of [for it, (t, lng) in enumerate(zip(...))]. *)
Definition stage (it : nat) (t lng : PyVal) : list SimCmd :=
  let i := str (Z.of_nat it) in
  [Velocity "create"] ++
  (if has_rigid then [Custom "run 0"; Velocity "scale"] else []) ++
  (if has_rigid then [AddMD (rigid_md ("rig_fix_" +:+ i) t)] else []) ++
  [AddMdMD (main_md ("main_fix_" +:+ i) t);
   Custom ("fix        tether_fix_" +:+ i +:+ " matrix spring tether 30.0 0.0 0.0 0.0 0.0");
   Custom ("run " +:+ format_val lng +:+ nl);
   Custom ("unfix main_fix_" +:+ i);
   Custom ("unfix rig_fix_" +:+ i);
   Custom ("unfix tether_fix_" +:+ i)].

Fixpoint stages_from (it : nat) (pairs : list (PyVal * PyVal)) : list SimCmd :=
  match pairs with
  | [] => []
  | (t, lng) :: rest => stage it t lng ++ stages_from (S it) rest
  end.

Definition output_settings (dump_path : string) : Outcome SimCmd :=
  match py_int (dict_get mdp "dump") with
  | Returned freq => Returned (OutputSettings (dict_get mdp "thermo") dump_path freq)
  | Exited c => Exited c
  | Raised e => Raised e
  end.

(** [if type(mdp.get('timestep')) == list: ... else: ...] *)
Definition md_description (dump_path : string) : Outcome (list SimCmd) :=
  match dict_get mdp "timestep" with
  | VList ts =>
      match output_settings dump_path with
      | Returned out =>
          match py_iter (dict_get mdp "length") with
          | Some lens => Returned (out :: stages_from 0 (zip ts lens))
          | None => Raised TypeError
          end
      | Exited c => Exited c
      | Raised e => Raised e
      end
  | timestep =>
      match output_settings dump_path with
      | Returned out =>
          Returned
            ((if has_rigid then [AddMD (rigid_md "rig_fix" timestep)] else []) ++
             [AddMdMD (main_md "main_fix" timestep);
              Custom "fix tether_fix matrix spring tether 30.0 0.0 0.0 0.0 0.0";
              out;
              Custom ("run " +:+ format_val (dict_get mdp "length") +:+ nl)])
      | Exited c => Exited c
      | Raised e => Raised e
      end
  end.

(** Everything added to [sim] before it runs. *)
Definition md_job (matrix_ids nonrigid_ids : string) (dump_path : string)
  : Outcome (list SimCmd) :=
  match md_description dump_path with
  | Returned descr =>
      Returned
        ([Init (dict_get mdp "cutoff") (dict_get mdp "special_bonds")
               (dict_get mdp "pair_modify");
          Custom neighbor_settings;
          Group "matrix" "id" matrix_ids;
          Group nonrig_group_name "id" nonrigid_ids] ++
         (if has_rigid then [Group rig_group_name "id" rigid_mols] else []) ++
         descr)
  | Exited c => Exited c
  | Raised e => Raised e
  end.

End Job.

(** The fix definitions a list of commands creates and removes, in order.
    Modelled from the spec: an [lmps.MolecularDynamics] named [name] stands
    for the temporary force definition (fix) [name]; a custom line defines
    one with [fix ID ...] and removes one with [unfix ID]. *)
Definition fixes_created (cmds : list SimCmd) : list string :=
  flat_map (fun c =>
    match c with
    | AddMD md | AddMdMD md => [md_name md]
    | Custom text =>
        match split text with
        | "fix" :: id :: _ => [id]
        | _ => []
        end
    | _ => []
    end) cmds.

Definition fixes_removed (cmds : list SimCmd) : list string :=
  flat_map (fun c =>
    match c with
    | Custom text =>
        match split text with
        | "unfix" :: id :: _ => [id]
        | _ => []
        end
    | _ => []
    end) cmds.

(** *** [mc_md] *)

Definition no_gas_msg : string :=
  "There are no gas molecules were specified correctely" +:+ nl +:+
  "The gas molecules are needed to start the MC-MD simulations" +:+ nl +:+
  "Exiting...".
Definition no_chem_pot_msg : string :=
  "Missing chemical potential info" +:+ nl +:+ "Exiting...".
Definition no_mc_msg : string :=
  "Missing the MC Simulation settings" +:+ nl +:+ "Exiting...".
Definition no_md_msg : string :=
  "Missing the MD Simulation settings" +:+ nl +:+ "Exiting...".
Definition skip_fixed_msg : string :=
  "Cannot setup the fixed system for the simulations. Skipping this".
Definition serial_msg : string :=
  "[INFO]: np not specified, defaulting to serial".
Definition mpiexec_msg : string :=
  "[INFO]: Prefix not specified, defaulting to mpiexec".

Definition OMP_NUM_THREADS : string := "OMP_NUM_THREADS".

Section Run.

(** The interpreter that runs the module. *)
Variable py : PyVersion.
(** [cassandra.make_iterable], which the sources at hand only call. *)
Variable make_iterable : PyVal -> PyVal.
(** ['{:}'.format(v)] *)
Variable format_val : PyVal -> string.
Variable E : Engines.

(** Lines 57-63: [fixed_sst] after [fs.wrap()], which works in place. *)
Definition setup_fixed (fixed_sst : PyVal) : M PyVal :=
  if truthy fixed_sst then
    match fixed_sst with
    | VSys fs => do emit Wrap then ret (VSys (wrap E fs))
    | _ => do emit (Print skip_fixed_msg) then ret fixed_sst
    end
  else ret fixed_sst.

(** [isinstance(gas_sst, types.ListType)]: the attribute is looked up
    first. *)
Definition is_list_type (v : PyVal) : Outcome bool :=
  match py with
  | Py2 => Returned (match v with VList _ => true | _ => false end)
  | Py3 => Raised AttributeError
  end.

Definition systems_of (vs : list PyVal) : list System :=
  omap (fun g => match g with VSys s => Some s | _ => None end) vs.

(** Lines 66-78. *)
Definition setup_gases (gas_sst : PyVal) : M (list System) :=
  let* gases :=
    if truthy gas_sst then
      match gas_sst with
      | VSys g => ret [g]
      | _ =>
          let* is_list := of_outcome (is_list_type gas_sst) in
          if is_list then
            let* items := of_option TypeError (py_iter (make_iterable gas_sst)) in
            ret (systems_of items)
          else ret []
      end
    else ret [] in
  match gases with
  | [] => do emit (Print no_gas_msg) then exit 1
  | _ => ret gases
  end.

(** Lines 82-91: [CHEM_POT] and [mcp] with its ['Start_Type']. *)
Definition start_species (counts : list Z) : PyVal :=
  VList (VInt 1 :: map VInt counts).

Definition setup_mc (mc_props : option (gmap string PyVal))
  : M (PyVal * gmap string PyVal) :=
  match mc_props with
  | Some mcp =>
      if bool_decide (mcp = ∅) then do emit (Print no_mc_msg) then exit 1
      else
        let CHEM_POT := make_iterable (dict_get mcp "Chemical_Potential_Info") in
        if truthy CHEM_POT then
          let* n := of_option TypeError (py_len CHEM_POT) in
          ret (CHEM_POT,
               <["Start_Type" := VDict [("species", start_species (replicate n 0))]]> mcp)
        else do emit (Print no_chem_pot_msg) then exit 1
  | None => do emit (Print no_mc_msg) then exit 1
  end.

(** Lines 95-98. *)
Definition setup_md (md_props : option (gmap string PyVal))
  : M (gmap string PyVal) :=
  match md_props with
  | Some mdp =>
      if bool_decide (mdp = ∅) then do emit (Print no_md_msg) then exit 1
      else ret mdp
  | None => do emit (Print no_md_msg) then exit 1
  end.

Definition rename_step (gases : list System) : M unit :=
  let* w := get_world in
  set_type_names (rename_gas_types gases (w_type_names w)).

(** Everything before the loop. *)
Record Setup := mkSetup {
  su_n_iter : Z;
  su_sim_folder : string;
  su_gases : list System;
  su_CHEM_POT : PyVal;
  su_mdp : gmap string PyVal;
  su_loop : Loop;
}.

Definition init (gas_sst fixed_sst : PyVal)
    (mc_props md_props : option (gmap string PyVal)) (prefix : PyVal)
    (kwargs : Kwargs) : M Setup :=
  let n_iter := default 10 (kw_mcmd_niter kwargs) in
  let sim_folder := default "results" (kw_sim_folder kwargs) in
  let is_restart := default false (kw_restart kwargs) in
  let* l := restart_scan sim_folder is_restart in
  let* fixed_sst := setup_fixed fixed_sst in
  let* gases := setup_gases gas_sst in
  do emit (NewCassandra fixed_sst) then
  let* (CHEM_POT, mcp) := setup_mc mc_props in
  let* mdp := setup_md md_props in
  do rename_step gases then
  ret (mkSetup n_iter sim_folder gases CHEM_POT mdp
         (mkLoop l is_restart (new_cassandra E fixed_sst) [] mcp None prefix)).

(** INIT lets the arguments through, and makes [gases], [CHEM_POT], [mcp]
    and [mdp] of them. *)
Definition accepts (gas_sst : PyVal)
    (mc_props md_props : option (gmap string PyVal))
    (gases : list System) (CHEM_POT : PyVal) (mcp mdp : gmap string PyVal) : Prop :=
  forall w,
    setup_gases gas_sst w = (w, Returned gases) /\
    setup_mc mc_props w = (w, Returned (CHEM_POT, mcp)) /\
    setup_md md_props w = (w, Returned mdp).

Section Iteration.

Variable su : Setup.
Variable np : PyVal.

Definition sim_folder : string := su_sim_folder su.

(** Lines 107-111: [mcp] with its ['Run_Name'], and the job queued for
    iteration [l]. *)
Definition named_mcp (st : Loop) : gmap string PyVal :=
  <["Run_Name" := VStr (gcmc_run_name (l st))]> (mcp st).

Definition new_job (st : Loop) (w : World) : GcmcJob :=
  let rigid := dict_get (named_mcp st) "rigid_type" in
  mkGcmcJob (su_gases su)
    (map (type_names_of (w_type_names w)) (su_gases su))
    (su_CHEM_POT su)
    (if truthy rigid then rigid
     else VList (replicate (length (su_gases su)) (VBool false)))
    sim_folder (gcmc_props_name (l st)) (named_mcp st).

(** Lines 119-123: the positions and the box of [tmp] are copied into [s],
    particle by particle. *)
Definition resync (s tmp : System) : option System :=
  if bool_decide (map_Forall (fun tag _ => is_Some (particles tmp !! tag)) (particles s))
  then Some (mkSystem (map_imap (fun tag _ => particles tmp !! tag) (particles s))
                      (dim tmp) (particle_types s))
  else None.

(** Modelled from the spec: the Monte-Carlo engine leaves its properties
    file and the checkpoint of the run in [out_folder], under the run
    name. *)
Definition mc_files (i : Z) : list string :=
  [gcmc_props_name i; gcmc_run_name i +:+ ".chk"].

(** Lines 106-127. *)
Definition mc_phase (st : Loop) : M Loop :=
  let* w := get_world in
  let job := new_job st w in
  let mcp := named_mcp st in
  do emit (AddGcmc job) then
  if is_restart st then
    do emit (UpdSimulation job) then
    let* res := of_option EngineError (upd_simulation E (w_dir w) job) in
    do emit (ReadLammps (lmps_fname sim_folder (l st))) then
    let* tmp_sst :=
      of_option EngineError (read_lammps E (w_dir w) (lmps_fname sim_folder (l st))) in
    let* sys := of_option LookupError (resync (tot_sst res) tmp_sst) in
    ret (mkLoop (l st) false sys (run_queue st ++ [(job, Some res)]) mcp
                (sim st) (prefix st))
  else
    do emit (CssRun job) then
    let* (sys, res) := of_option EngineError (css_run E (css_system st) job) in
    do for_each (mc_files (l st)) create then
    do emit (WriteLammps (lmps_fname sim_folder (l st)) sys) then
    do create (lmps_name (l st)) then
    ret (mkLoop (l st) false sys (run_queue st ++ [(job, Some res)]) mcp
                (sim st) (prefix st)).

(** Modelled from the spec: the MD engine leaves its log and its trajectory
    dump under the names it is given. *)
Definition md_files (i : Z) : list string := [md_log_name i; md_dump_name i].

(** Lines 223-230: the launch; the result carries the value of [prefix]
    afterwards. Without [np] the call is [sim.run(prefix='[]')], which
    leaves [np] to its default, [None]. *)
Definition run_prefix (st : Loop) : M (PyVal * PyVal) :=
  if is_None np then
    do emit (Print serial_msg) then ret (VStr "[]", prefix st)
  else if is_None (prefix st) then
    do emit (Print mpiexec_msg) then ret (VStr "mpiexec", VStr "mpiexec")
  else ret (prefix st, prefix st).

Definition launch (st : Loop) (sim_sst : System) (job : list SimCmd)
  : M (System * PyVal) :=
  let* w := get_world in
  let omp := w_environ w !! OMP_NUM_THREADS in
  let* (with_prefix, prefix) := run_prefix st in
  let res := sim_run E sim_sst job np with_prefix in
  do emit (SimRun job np with_prefix omp res) then
  let* sys := of_option EngineError res in
  do for_each (md_files (l st)) create then
  ret (sys, prefix).

(** Lines 129-241. *)
Definition md_phase (st : Loop) : M Loop :=
  let* w := get_world in
  let nm_treads := default "1" (w_environ w !! OMP_NUM_THREADS) in
  do setenv OMP_NUM_THREADS "1" then
  let sim_sst := css_system st in
  do emit (WriteLammps (path_join sim_folder (lmps_name (l st))) sim_sst) then
  do create (lmps_name (l st)) then
  do emit (NewSimulation sim_sst
             (dict_get_default (su_mdp su) "print_to_screen" (VBool false))
             (path_join sim_folder (md_log_name (l st)))) then
  let first := head (run_queue st) in
  let* (job0, res0) := of_option IndexError first in
  let rigid_mols := group_by_id E job0 res0 "rigid" in
  let* job :=
    of_outcome (md_job format_val (su_mdp su) rigid_mols
                  (group_by_id E job0 res0 "matrix")
                  (group_by_id E job0 res0 "nonrigid")
                  (path_join sim_folder (md_dump_name (l st)))) in
  let* (sys, prefix) := launch st sim_sst job in
  do setenv OMP_NUM_THREADS nm_treads then
  do emit UnwrapGas then
  let sys' := unwrap_gas E sys in
  do emit (WriteXyz (xyz_fname sim_folder (l st)) sys') then
  do create (xyz_name (l st)) then
  let* (_, res) := of_option IndexError (last (run_queue st)) in
  let* res := of_option AttributeError res in
  let start_type :=
    VDict [("species", start_species (made_ins res));
           ("file_name", VStr (xyz_fname sim_folder (l st)))] in
  ret (mkLoop (l st + 1) (is_restart st) sys' (run_queue st)
              (<["Start_Type" := start_type]> (mcp st)) (Some sys) prefix).

Definition iteration (st : Loop) : M Loop :=
  let* st' := mc_phase st in md_phase st'.

(** [while l < n_iter + 1: ...]; [fuel] bounds the number of turns. *)
Fixpoint while_loop (fuel : nat) (st : Loop) : M Loop :=
  match fuel with
  | O => ret st
  | S fuel' =>
      if l st <? su_n_iter su + 1
      then let* st' := iteration st in while_loop fuel' st'
      else ret st
  end.

(** Each turn adds one to [l], so [n_iter + 1 - l] turns are enough. *)
Definition turns (st : Loop) : nat := Z.to_nat (su_n_iter su + 1 - l st).

Definition loop (st : Loop) : M Loop := while_loop (turns st) st.

End Iteration.

(** [mc_md(gas_sst, fixed_sst, mc_props, md_props, np, prefix, **kwargs)];
    the result is [sim.system if sim else None]. *)
Definition mc_md (gas_sst fixed_sst : PyVal)
    (mc_props md_props : option (gmap string PyVal)) (np prefix : PyVal)
    (kwargs : Kwargs) : M (option System) :=
  let* su := init gas_sst fixed_sst mc_props md_props prefix kwargs in
  let* st := loop su np (su_loop su) in
  ret (sim st).

End Run.

(** *** Reading the trace *)

Definition run_name_of (job : GcmcJob) : string :=
  match job_props job !! "Run_Name" with
  | Some (VStr name) => name
  | _ => ""
  end.

(** The runs the Monte-Carlo engine was launched for, by run name. *)
Definition mc_launches (tr : list Event) : list string :=
  omap (fun e => match e with CssRun job => Some (run_name_of job) | _ => None end) tr.

(** The runs whose state was read back instead. *)
Definition resyncs (tr : list Event) : list string :=
  omap (fun e => match e with UpdSimulation job => Some (run_name_of job) | _ => None end) tr.

(** The jobs built: run name and properties file. *)
Definition jobs_added (tr : list Event) : list (string * string) :=
  omap (fun e => match e with
                 | AddGcmc job => Some (run_name_of job, job_props_file job)
                 | _ => None
                 end) tr.

Definition lammps_written (tr : list Event) : list string :=
  omap (fun e => match e with WriteLammps path _ => Some path | _ => None end) tr.

Definition lammps_read (tr : list Event) : list string :=
  omap (fun e => match e with ReadLammps path => Some path | _ => None end) tr.

Definition xyz_written (tr : list Event) : list string :=
  omap (fun e => match e with WriteXyz path _ => Some path | _ => None end) tr.

Definition md_logs (tr : list Event) : list string :=
  omap (fun e => match e with NewSimulation _ _ log => Some log | _ => None end) tr.

Definition dump_of (job : list SimCmd) : list string :=
  omap (fun c => match c with OutputSettings _ file _ => Some file | _ => None end) job.

Definition md_dumps (tr : list Event) : list string :=
  flat_map (fun e => match e with SimRun job _ _ _ _ => dump_of job | _ => [] end) tr.

(** What each MD run returned, and the thread count it ran under. *)
Definition md_results (tr : list Event) : list (option System) :=
  omap (fun e => match e with SimRun _ _ _ _ res => Some res | _ => None end) tr.

Definition md_threads (tr : list Event) : list (option string) :=
  omap (fun e => match e with SimRun _ _ _ omp _ => Some omp | _ => None end) tr.

Definition removed (tr : list Event) : list string :=
  omap (fun e => match e with Remove path => Some path | _ => None end) tr.

(** The file and run names an iteration goes through, by kind. *)
Record Footprint := mkFootprint {
  fp_jobs : list (string * string);    (* run name and properties file of each job built *)
  fp_launches : list string;           (* runs the Monte-Carlo engine was launched for *)
  fp_resyncs : list string;            (* runs read back instead *)
  fp_lammps_written : list string;
  fp_lammps_read : list string;
  fp_xyz_written : list string;
  fp_md_logs : list string;
  fp_md_dumps : list string;
}.

Definition footprint (tr : list Event) : Footprint :=
  mkFootprint (jobs_added tr) (mc_launches tr) (resyncs tr) (lammps_written tr)
              (lammps_read tr) (xyz_written tr) (md_logs tr) (md_dumps tr).

Definition fp_app (a b : Footprint) : Footprint :=
  mkFootprint (fp_jobs a ++ fp_jobs b) (fp_launches a ++ fp_launches b)
              (fp_resyncs a ++ fp_resyncs b)
              (fp_lammps_written a ++ fp_lammps_written b)
              (fp_lammps_read a ++ fp_lammps_read b)
              (fp_xyz_written a ++ fp_xyz_written b)
              (fp_md_logs a ++ fp_md_logs b) (fp_md_dumps a ++ fp_md_dumps b).

Definition fp_empty : Footprint := mkFootprint [] [] [] [] [] [] [] [].

Definition fp_concat (fps : list Footprint) : Footprint :=
  foldr fp_app fp_empty fps.

(** An iteration that launches the Monte-Carlo engine: the pre-MD file is
    written after the MC run and again for the MD run. *)
Definition launched_iteration (folder : string) (i : Z) : Footprint :=
  mkFootprint [(gcmc_run_name i, gcmc_props_name i)] [gcmc_run_name i] []
    [path_join folder (lmps_name i); path_join folder (lmps_name i)] []
    [path_join folder (xyz_name i)] [path_join folder (md_log_name i)]
    [path_join folder (md_dump_name i)].

(** An iteration that reads the state of its Monte-Carlo run back. *)
Definition resumed_iteration (folder : string) (i : Z) : Footprint :=
  mkFootprint [(gcmc_run_name i, gcmc_props_name i)] [] [gcmc_run_name i]
    [path_join folder (lmps_name i)] [path_join folder (lmps_name i)]
    [path_join folder (xyz_name i)] [path_join folder (md_log_name i)]
    [path_join folder (md_dump_name i)].

(** Settings with which the description of the MD run can be built: the
    dump frequency converts to an [int], and a list of timesteps comes with
    an iterable of lengths. *)
Definition md_settings_ok (mdp : gmap string PyVal) : bool :=
  match py_int (dict_get mdp "dump") with
  | Returned _ =>
      match dict_get mdp "timestep" with
      | VList _ => bool_decide (is_Some (py_iter (dict_get mdp "length")))
      | _ => true
      end
  | _ => false
  end.

(** *** Sample data *)

Definition empty_system : System := mkSystem ∅ [] [].

(** Two one-molecule gases whose types are both called C1, and a store that
    holds the two type objects. *)
Definition gas_a : System := mkSystem ∅ [] [0%nat].
Definition gas_b : System := mkSystem ∅ [] [1%nat].
Definition two_C1 : gmap nat string := <[0%nat := "C1"]> (<[1%nat := "C1"]> ∅).

Definition sample_make_iterable (v : PyVal) : PyVal :=
  match v with
  | VList _ | VStr _ | VDict _ => v
  | _ => VList [v]
  end.

Definition sample_format (v : PyVal) : string :=
  match v with
  | VInt z => str z
  | VStr s => s
  | VNone => "None"
  | VBool true => "True"
  | VBool false => "False"
  | _ => "?"
  end.

(** Engines that always succeed; a job is read back only when the
    checkpoint of its run is in the folder, a file only when it exists. The
    ids of the rigid molecules are [rigid_ids]. *)
Definition sample_engines (rigid_ids : string) : Engines :=
  mkEngines
    (fun s => s)
    (fun v => match v with VSys s => s | _ => empty_system end)
    (fun sys job => Some (sys, mkMcResult sys [2]))
    (fun d job =>
       match job_props job !! "Run_Name" with
       | Some (VStr run) =>
           if bool_decide (run +:+ ".chk" ∈ d)
           then Some (mkMcResult empty_system [2]) else None
       | _ => None
       end)
    (fun d path =>
       if bool_decide (path ∈ map (path_join "results") d)
       then Some empty_system else None)
    (fun _ _ kind =>
       if String.eqb kind "rigid" then rigid_ids
       else if String.eqb kind "matrix" then "1:10" else "11:20")
    (fun s _ _ _ => Some s)
    (fun s => s).

Definition sample_mc_props : gmap string PyVal :=
  <["Chemical_Potential_Info" := VList [VFloat (-30.5)%float]]> ∅.

Definition sample_md_props : gmap string PyVal :=
  <["timestep" := VFloat 1%float]> (<["length" := VInt 1000]>
  (<["dump" := VInt 100]> (<["thermo" := VInt 100]> ∅))).

Definition staged_md_props : gmap string PyVal :=
  <["timestep" := VList [VFloat 1%float; VFloat 2%float]]>
  (<["length" := VList [VInt 1000; VInt 2000]]>
  (<["dump" := VInt 100]> (<["thermo" := VInt 100]> ∅))).

Definition fresh_world : World := mkWorld [] ∅ two_C1 [].

Definition kwargs_of (n : Z) (restart : bool) : Kwargs :=
  mkKwargs (Some n) None (Some restart).

(** The same engines, with an MD engine that fails. *)
Definition with_failing_md (E : Engines) : Engines :=
  mkEngines (wrap E) (new_cassandra E) (css_run E) (upd_simulation E) (read_lammps E)
            (group_by_id E) (fun _ _ _ _ => None) (unwrap_gas E).

(** A process started with four threads. *)
Definition four_threads_world : World :=
  mkWorld [] (<[OMP_NUM_THREADS := "4"]> ∅) two_C1 [].

(** The folder two complete iterations leave. *)
Definition two_iterations_dir : list string :=
  ["1.gcmc_props.inp"; "1.gcmc.chk"; "1.before_md.lmps"; "1.md.log"; "1.md.dump";
   "1.md_out.xyz"; "2.gcmc_props.inp"; "2.gcmc.chk"; "2.before_md.lmps"; "2.md.log";
   "2.md.dump"; "2.md_out.xyz"].

Definition after_two_iterations : World := mkWorld two_iterations_dir ∅ two_C1 [].

(** The state between the two phases of a first iteration. *)
Definition sample_job : GcmcJob :=
  mkGcmcJob [gas_a] [["C1_g1"]] (VList [VFloat (-30.5)%float]) (VList [VBool false])
    "results" (gcmc_props_name 1)
    (<["Run_Name" := VStr (gcmc_run_name 1)]> sample_mc_props).

Definition after_mc : Loop :=
  mkLoop 1 false empty_system [(sample_job, Some (mkMcResult empty_system [2]))]
         sample_mc_props None VNone.

Definition sample_setup : Setup :=
  mkSetup 1 "results" [gas_a] (VList [VFloat (-30.5)%float]) sample_md_props
          (mkLoop 1 false empty_system [] sample_mc_props None VNone).

Definition sample_run (py : PyVersion) (gas_sst : PyVal) (n : Z) (restart : bool)
    (w : World) : World * Outcome (option System) :=
  mc_md py sample_make_iterable sample_format (sample_engines "")
    gas_sst VNone (Some sample_mc_props) (Some sample_md_props) VNone VNone
    (kwargs_of n restart) w.

End McMd.

(** ** Facts about the built-ins *)

Module PyProofs.
Import Py.

Lemma string_length_app (s t : string) :
  String.length (s +:+ t) = (String.length s + String.length t)%nat.
Proof.
  induction s as [|c s IH]; [done|].
  change (String c s +:+ t) with (String c (s +:+ t)). simpl. by rewrite IH.
Qed.

Lemma string_app_inv_tail (s1 s2 t : string) : s1 +:+ t = s2 +:+ t -> s1 = s2.
Proof.
  revert s2. induction s1 as [|c s1 IH]; intros [|c' s2] H.
  - done.
  - apply (f_equal String.length) in H. rewrite !string_length_app in H. simpl in H. lia.
  - apply (f_equal String.length) in H. rewrite !string_length_app in H. simpl in H. lia.
  - cbn in H. injection H as -> H. f_equal. by apply IH.
Qed.

Lemma string_app_assoc (s t u : string) : (s +:+ t) +:+ u = s +:+ t +:+ u.
Proof.
  induction s as [|c s IH]; [done|].
  change ((String c s +:+ t) +:+ u) with (String c ((s +:+ t) +:+ u)).
  by rewrite IH.
Qed.

Lemma all_digits_uint d : all_digits (NilEmpty.string_of_uint d) = true.
Proof. induction d; simpl; by rewrite ?IHd. Qed.

Lemma str_nonneg i : 0 <= i ->
  exists d, d <> Decimal.Nil /\ Z.to_int i = Decimal.Pos d /\
            str i = NilEmpty.string_of_uint d.
Proof.
  intros Hi. destruct i as [|p|p]; [| |lia].
  - exists (Decimal.D0 Decimal.Nil). done.
  - exists (Pos.to_uint p). pose proof (DecimalPos.Unsigned.to_uint_nonnil p) as Hn.
    split; [done|]. split; [done|]. unfold str. cbn.
    unfold NilZero.string_of_uint. by destruct (Pos.to_uint p).
Qed.

Lemma str_all_digits i : 0 <= i -> all_digits (str i) = true.
Proof. intros (d & _ & _ & ->)%str_nonneg. apply all_digits_uint. Qed.

Lemma str_nonempty i : str i <> "".
Proof.
  unfold str. destruct i as [|p|p]; cbn; [done| |done].
  pose proof (DecimalPos.Unsigned.to_uint_nonnil p). unfold NilZero.string_of_uint.
  destruct (Pos.to_uint p); done.
Qed.

Lemma int_of_digits_str i : 0 <= i -> int_of_digits (str i) = Some i.
Proof.
  intros Hi. destruct (str_nonneg i Hi) as (d & Hd & Hint & Hs).
  unfold int_of_digits. rewrite Hs.
  replace (NilEmpty.string_of_uint d) with (NilZero.string_of_uint d)
    by (by destruct d).
  rewrite NilZero.usu by done. cbn. f_equal.
  pose proof (DecimalZ.of_to i) as H. rewrite Hint in H. exact H.
Qed.

Lemma to_int_normal z : Z.to_int z <> Decimal.Pos Decimal.Nil /\
                        Z.to_int z <> Decimal.Neg Decimal.Nil.
Proof.
  destruct z as [|p|p]; cbn; (split; [|try done]); try done;
    intros [= H]; by apply (DecimalPos.Unsigned.to_uint_nonnil p).
Qed.

Lemma str_inj i j : str i = str j -> i = j.
Proof.
  unfold str. intros H. apply DecimalZ.to_int_inj.
  destruct (to_int_normal i) as [Hi1 Hi2], (to_int_normal j) as [Hj1 Hj2].
  pose proof (NilZero.isi _ Hi1 Hi2) as Hi. pose proof (NilZero.isi _ Hj1 Hj2) as Hj.
  rewrite H in Hi. congruence.
Qed.

Lemma leading_digits_app d c r :
  all_digits d = true -> is_digit c = false ->
  leading_digits (d +:+ String c r) = d.
Proof.
  induction d as [|a d IH]; intros Hd Hc.
  - change ("" +:+ String c r) with (String c r). cbn. by rewrite Hc.
  - cbn in Hd. apply andb_true_iff in Hd as [Ha Hd].
    change (String a d +:+ String c r) with (String a (d +:+ String c r)).
    cbn. rewrite Ha. f_equal. by apply IH.
Qed.

Lemma fnmatch_star p s t : fnmatch p t = true -> fnmatch (String "*" p) (s +:+ t) = true.
Proof.
  intros H. induction s as [|c s IH].
  - change ("" +:+ t) with t. destruct t; cbn in *; by rewrite H.
  - change (String c s +:+ t) with (String c (s +:+ t)).
    cbn in *. rewrite IH. apply orb_true_r.
Qed.

Lemma fnmatch_digits d q name :
  all_digits d = true ->
  fnmatch (d +:+ q) name = true ->
  exists r, name = d +:+ r /\ fnmatch q r = true.
Proof.
  revert name. induction d as [|a d IH]; intros name Hd H.
  - exists name. done.
  - cbn in Hd. apply andb_true_iff in Hd as [Ha Hd].
    change (String a d +:+ q) with (String a (d +:+ q)) in H.
    cbn [fnmatch] in H.
    assert (Ascii.eqb a "*" = false /\ Ascii.eqb a "?" = false) as [E1 E2].
    { unfold is_digit in Ha. split; apply Ascii.eqb_neq; intros ->; done. }
    rewrite E1, E2 in H. destruct name as [|c name]; [done|].
    apply andb_true_iff in H as [Hc H]. apply Ascii.eqb_eq in Hc as <-.
    destruct (IH name Hd H) as (r & -> & Hr). exists r. done.
Qed.

Lemma fnmatch_dot q name :
  fnmatch (String "." q) name = true -> exists r, name = String "." r.
Proof.
  cbn [fnmatch]. change (Ascii.eqb "." "*") with false.
  change (Ascii.eqb "." "?") with false. cbv iota.
  destruct name as [|c name]; [done|].
  intros [Hc _]%andb_true_iff. apply Ascii.eqb_eq in Hc as <-. eauto.
Qed.

Lemma leading_digits_of_match d q name :
  all_digits d = true ->
  fnmatch (d +:+ String "." q) name = true -> leading_digits name = d.
Proof.
  intros Hd (r & -> & [r' ->]%fnmatch_dot)%fnmatch_digits; [|done].
  by apply leading_digits_app.
Qed.

End PyProofs.

(** ** Properties of pysimm/amber.py *)

Module AmberProofs.
Import Py Amber.

Section Charges.

Variable py_float : string -> option float.
Variable exec : string.

(** The tags listed by a block of rows. *)
Definition block_tags (rows : list string) : list Z := omap row_tag rows.

(** The charge the rows give to the particle tagged [t]: the second-to-last
    field of the last row that lists it. *)
Fixpoint listed_charge (rows : list string) (t : Z) : option float :=
  match rows with
  | [] => None
  | r :: rest =>
      match listed_charge rest t with
      | Some c => Some c
      | None =>
          if bool_decide (row_tag r = Some t)
          then penultimate (split r) ≫= py_float
          else None
      end
  end.

Lemma charge_row_cases s fields s' out :
  charge_row py_float s fields = (s', out) ->
  (s' = s /\ out <> Returned ()) \/
  (exists tag c p,
      fields !! 1%nat ≫= int_of_str = Some tag /\
      penultimate fields ≫= py_float = Some c /\
      particles s !! tag = Some p /\
      s' = mkSystem (<[tag := set_charge c p]> (particles s)) (particle_types s) /\
      out = Returned ()).
Proof.
  unfold charge_row, update_particle. intros H.
  destruct (fields !! 1%nat) as [f1|] eqn:E1; simpl; [|left; by simplify_eq].
  destruct (int_of_str f1) as [tag|] eqn:E2; [|left; by simplify_eq].
  destruct (penultimate fields ≫= py_float) as [c|] eqn:E3; [|left; by simplify_eq].
  destruct (particles s !! tag) as [p|] eqn:E4; [|left; by simplify_eq].
  right. exists tag, c, p. by simplify_eq.
Qed.

Lemma set_charge_twice c c' p : set_charge c' (set_charge c p) = set_charge c' p.
Proof. reflexivity. Qed.

Lemma listed_charge_unlisted rows t :
  t ∉ block_tags rows -> listed_charge rows t = None.
Proof.
  induction rows as [|r rest IH]; [done|]. unfold block_tags. simpl.
  intros Hnot. destruct (row_tag r) as [t'|] eqn:Er.
  - apply not_elem_of_cons in Hnot as [Hne Hnot]. rewrite (IH Hnot).
    case_bool_decide; [congruence | done].
  - rewrite (IH Hnot). case_bool_decide; [congruence | done].
Qed.

(** Whatever the outcome, the loop touches only particles listed in the
    block, changes nothing but their charge, and leaves the registry. *)
Lemma charge_loop_frame lines : forall s s' out,
  charge_loop py_float s lines = (s', out) ->
  particle_types s' = particle_types s /\
  (forall t, t ∉ block_tags (atom_block lines) ->
             particles s' !! t = particles s !! t) /\
  (forall t p', particles s' !! t = Some p' ->
      exists p, particles s !! t = Some p /\
                p_x p' = p_x p /\ p_y p' = p_y p /\ p_z p' = p_z p /\
                p_type p' = p_type p).
Proof.
  induction lines as [|line rest IH]; intros s s' out H; simpl in H.
  { simplify_eq. eauto 10. }
  simpl. unfold is_atom_row.
  destruct (split line) as [|f0 fs] eqn:Es; [simplify_eq; eauto 10|].
  destruct (String.eqb f0 "ATOM") eqn:Ea; [|simplify_eq; eauto 10].
  destruct (charge_row py_float s (f0 :: fs)) as [s1 o1] eqn:Er.
  apply charge_row_cases in Er as [[-> Hno] | (tag & c & p & Htag & Hc & Hp & -> & ->)].
  { destruct o1 as [[]| |]; [done| |]; simplify_eq; eauto 10. }
  apply IH in H as (Hreg & Hframe & Hfields). simpl in Hreg, Hframe, Hfields.
  split; [done|]. split.
  - intros t Ht. unfold block_tags in Ht. simpl in Ht. unfold row_tag in Ht.
    rewrite Es, Htag in Ht. apply not_elem_of_cons in Ht as [Hne Ht].
    rewrite Hframe by done. by rewrite lookup_insert_ne.
  - intros t p' Hp'. destruct (Hfields t p' Hp') as (p1 & Hp1 & ?).
    destruct (decide (tag = t)) as [->|Hne].
    + rewrite lookup_insert_eq in Hp1. simplify_eq. exists p. by simpl in *.
    + rewrite lookup_insert_ne in Hp1 by done. eauto.
Qed.

(** When the loop returns, every particle has the charge its last row gives
    it, and is otherwise as before. *)
Lemma charge_loop_returned lines : forall s s',
  charge_loop py_float s lines = (s', Returned ()) ->
  forall t, particles s' !! t =
            match listed_charge (atom_block lines) t with
            | Some c => set_charge c <$> particles s !! t
            | None => particles s !! t
            end.
Proof.
  induction lines as [|line rest IH]; intros s s' H t; simpl in H; [done|].
  simpl. unfold is_atom_row.
  destruct (split line) as [|f0 fs] eqn:Es; [done|].
  destruct (String.eqb f0 "ATOM") eqn:Ea; [|by simplify_eq].
  destruct (charge_row py_float s (f0 :: fs)) as [s1 o1] eqn:Er.
  apply charge_row_cases in Er as [[-> Hno] | (tag & c & p & Htag & Hc & Hp & -> & ->)].
  { destruct o1 as [[]| |]; [done| |]; simplify_eq. }
  rewrite (IH _ _ H t). simpl. unfold row_tag. rewrite Es, Htag.
  destruct (listed_charge (atom_block rest) t) as [c'|] eqn:El.
  - destruct (decide (tag = t)) as [->|Hne].
    + by rewrite lookup_insert_eq, Hp.
    + by rewrite lookup_insert_ne.
  - case_bool_decide as Hd.
    + simplify_eq. rewrite lookup_insert_eq, Hp. by rewrite Hc.
    + rewrite lookup_insert_ne; [done|congruence].
Qed.

Lemma charge_loop_listed lines : forall s s',
  charge_loop py_float s lines = (s', Returned ()) ->
  forall t, t ∈ block_tags (atom_block lines) ->
            is_Some (listed_charge (atom_block lines) t) /\
            is_Some (particles s !! t).
Proof.
  induction lines as [|line rest IH]; intros s s' H t; simpl in H; [done|].
  simpl. unfold is_atom_row.
  destruct (split line) as [|f0 fs] eqn:Es; [done|].
  destruct (String.eqb f0 "ATOM") eqn:Ea; [|by intros ?%elem_of_nil].
  destruct (charge_row py_float s (f0 :: fs)) as [s1 o1] eqn:Er.
  apply charge_row_cases in Er as [[-> Hno] | (tag & c & p & Htag & Hc & Hp & -> & ->)].
  { destruct o1 as [[]| |]; [done| |]; simplify_eq. }
  unfold block_tags. simpl. unfold row_tag at 1. rewrite Es, Htag.
  intros Ht. unfold row_tag. rewrite Es, Htag.
  destruct (decide (t ∈ block_tags (atom_block rest))) as [Hin|Hnin].
  - destruct (IH _ _ H t Hin) as [[c' Hc'] Hs]. rewrite Hc'. split; [eauto|].
    simpl in Hs. destruct (decide (tag = t)) as [->|Hne]; [eauto|].
    by rewrite lookup_insert_ne in Hs.
  - apply elem_of_cons in Ht as [->|Ht]; [|done].
    rewrite (listed_charge_unlisted _ _ Hnin).
    rewrite bool_decide_eq_true_2 by done. rewrite Hc. eauto.
Qed.

Lemma charge_loop_returns pre r post : forall s,
  Forall (fun row => is_atom_row row = true /\
                     exists tag c, row_tag row = Some tag /\
                                   penultimate (split row) ≫= py_float = Some c /\
                                   is_Some (particles s !! tag)) pre ->
  split r <> [] -> is_atom_row r = false ->
  exists s', charge_loop py_float s (pre ++ r :: post) = (s', Returned ()).
Proof.
  induction pre as [|row pre IH]; intros s Hpre Hr Hna; simpl.
  - unfold is_atom_row in Hna. destruct (split r) as [|f0 fs]; [done|].
    rewrite Hna. eauto.
  - apply Forall_cons in Hpre as [(Hat & tag & c & Htag & Hc & [p Hp]) Hpre].
    unfold is_atom_row in Hat. unfold row_tag in Htag.
    destruct (split row) as [|f0 fs] eqn:Es; [done|]. rewrite Hat.
    unfold charge_row, update_particle.
    destruct ((f0 :: fs) !! 1%nat) as [f1|]; [|done]. simpl in Htag.
    rewrite Htag, Hc, Hp. apply IH; [|done..].
    eapply Forall_impl; [exact Hpre|]. simpl.
    intros row' (? & tag' & c' & ? & ? & Hs). split; [done|].
    exists tag', c'. split_and!; [done..|].
    destruct (decide (tag = tag')) as [->|Hne].
    + rewrite lookup_insert_eq. eauto.
    + by rewrite lookup_insert_ne.
Qed.

(** C10. [calc_charges] assigns charges only to the particles listed in the
    block of ATOM rows that starts at the third line of pysimm.tmp.ac and
    stops at the first row that is not an ATOM row: the registry, every
    particle outside the block and every field but the charge are as before,
    whatever the outcome, and on return each listed particle carries the
    second-to-last field of the (last) row listing it. *)
Theorem calc_charges_sets_listed_charges_only
    s charge_method cleanup ac present s' log out :
  calc_charges py_float exec s charge_method cleanup ac present = (s', log, out) ->
  let block := atom_block (drop 2 ac) in
  particle_types s' = particle_types s /\
  (forall t, t ∉ block_tags block -> particles s' !! t = particles s !! t) /\
  (forall t p', particles s' !! t = Some p' ->
      exists p, particles s !! t = Some p /\
                p_x p' = p_x p /\ p_y p' = p_y p /\ p_z p' = p_z p /\
                p_type p' = p_type p) /\
  (out = Returned () ->
   forall t, t ∈ block_tags block ->
      exists c p, listed_charge block t = Some c /\
                  particles s !! t = Some p /\
                  particles s' !! t = Some (set_charge c p)).
Proof.
  unfold calc_charges. intros H. set (block := atom_block (drop 2 ac)).
  destruct (charge_loop py_float s (drop 2 ac)) as [s1 o1] eqn:El.
  assert (s1 = s' /\ (out = Returned () -> o1 = Returned ())) as [-> Hout].
  { destruct o1 as [[]| |]; simplify_eq; done. }
  destruct (charge_loop_frame _ _ _ _ El) as (Hreg & Hframe & Hfields).
  split_and!; [done..|].
  intros Ho t Ht. rewrite (Hout Ho) in El.
  destruct (charge_loop_listed _ _ _ El t Ht) as [[c Hc] [p Hp]]. fold block in Hc.
  exists c, p. split_and!; [done..|].
  rewrite (charge_loop_returned _ _ _ El t). fold block.
  unfold block in Hc. fold block in Hc. rewrite Hc. by rewrite Hp.
Qed.

End Charges.

Section Typing.

Variable exec : string.
Variable types : string.

Lemma count_events_snoc P log e :
  count_events P (log ++ [e]) = (count_events P log + if P e then 1 else 0)%nat.
Proof.
  unfold count_events. rewrite filter_app, length_app. f_equal.
  rewrite filter_cons, filter_nil. by destruct (P e).
Qed.

Lemma not_found_msg_inj n n' : not_found_msg n types = not_found_msg n' types -> n = n'.
Proof.
  unfold not_found_msg. intros H. apply (inj (String.append _)) in H.
  by apply PyProofs.string_app_inv_tail in H.
Qed.

Lemma is_not_found_warning_self n n' :
  is_not_found_warning n types (WarningPrint (not_found_msg n' types))
  = bool_decide (n = n').
Proof.
  unfold is_not_found_warning. case_bool_decide as Hd.
  - subst. apply String.eqb_refl.
  - apply String.eqb_neq. intros H%not_found_msg_inj. congruence.
Qed.

(** What the flags and the set of reported names say about the log. *)
Record flags_agree (st : TypingState) : Prop := mkFlagsAgree {
  fa_alias : count_events is_alias_warning (st_log st) = if c5_c6_flag st then 1%nat else 0%nat;
  fa_snapshot_warning :
    count_events is_snapshot_warning (st_log st) = if warning_pdb_flag st then 1%nat else 0%nat;
  fa_snapshot_write :
    (0 < count_events is_snapshot_write (st_log st))%nat <-> warning_pdb_flag st = true;
  fa_not_found : forall n,
    count_events (is_not_found_warning n types) (st_log st)
    = if bool_decide (n ∈ missing_types st) then 1%nat else 0%nat;
}.

Lemma prefix_app p s : String.prefix p (p +:+ s) = true.
Proof.
  induction p as [|c p IH]; [by destruct s|].
  change (String c p +:+ s) with (String c (p +:+ s)). simpl.
  by destruct (ascii_dec c c).
Qed.

Lemma alias_of_alias n : is_alias_warning (WarningPrint (c5_c6_msg n)) = true.
Proof. apply prefix_app. Qed.

Lemma count_emit P e st :
  count_events P (st_log (emit e st))
  = (count_events P (st_log st) + if P e then 1 else 0)%nat.
Proof. apply count_events_snoc. Qed.

Lemma note_missing_flags name pt st :
  flags_agree st -> flags_agree (note_missing types name pt st).
Proof.
  intros Hf. pose proof Hf as [Ha Hsw Hw Hnf]. unfold note_missing.
  destruct (_ && _) eqn:E; [|done].
  apply andb_true_iff in E as [_ Hn%negb_true_iff%bool_decide_eq_false].
  split; cbn [add_missing st_log c5_c6_flag warning_pdb_flag missing_types st_sys];
    rewrite ?count_emit.
  - rewrite Ha. change (is_alias_warning _) with false. cbn [emit c5_c6_flag]. lia.
  - rewrite Hsw. change (is_snapshot_warning _) with false. cbn [emit warning_pdb_flag]. lia.
  - cbn [is_snapshot_write emit warning_pdb_flag]. by rewrite Nat.add_0_r.
  - intros n. rewrite count_emit, Hnf, is_not_found_warning_self. cbn [emit missing_types].
    destruct (decide (n = name)) as [->|Hne].
    + rewrite (bool_decide_eq_false_2 _ Hn), !bool_decide_eq_true_2; [done| |done].
      by apply elem_of_union_l, elem_of_singleton.
    + rewrite (bool_decide_eq_false_2 (n = name)) by done. rewrite Nat.add_0_r.
      rewrite (bool_decide_ext (n ∈ {[name]} ∪ missing_types st)
                               (n ∈ missing_types st)); [done|].
      rewrite elem_of_union, elem_of_singleton. tauto.
Qed.

Lemma substitute_or_snapshot_flags ff name pt st st' pt' :
  flags_agree st ->
  substitute_or_snapshot types ff name pt st = (st', pt') ->
  flags_agree st'.
Proof.
  intros Hf. pose proof Hf as [Ha Hsw Hw Hnf]. unfold substitute_or_snapshot.
  destruct (_ && _).
  - destruct (c5_c6_flag st) eqn:Ec; cbn [negb]; intros ?; simplify_eq; [done|].
    split; cbn [set_c5_c6_flag st_log c5_c6_flag warning_pdb_flag missing_types];
      rewrite ?count_emit.
    + rewrite Ha, ?Ec, alias_of_alias. done.
    + rewrite Hsw. change (is_snapshot_warning _) with false. cbn [emit warning_pdb_flag]. lia.
    + cbn [is_snapshot_write emit warning_pdb_flag]. by rewrite Nat.add_0_r.
    + intros n. rewrite count_emit, Hnf. change (is_not_found_warning _ _ _) with false.
      cbn [emit missing_types]. lia.
  - destruct (_ =? _)%nat; [|intros ?; by simplify_eq].
    destruct (warning_pdb_flag st) eqn:Ew; cbn [negb]; intros ?; simplify_eq.
    + split; rewrite ?count_emit.
      * rewrite Ha. cbn [is_alias_warning emit c5_c6_flag]. lia.
      * rewrite Hsw, ?Ew. cbn [is_snapshot_warning emit warning_pdb_flag]. rewrite ?Ew. lia.
      * cbn [emit warning_pdb_flag]. rewrite ?Ew. split; [done|]. intros _.
        change (is_snapshot_write (WritePdb _)) with true. cbv iota. lia.
      * intros n. rewrite count_emit, Hnf. cbn [is_not_found_warning emit missing_types]. lia.
    + split; cbn [emit set_warning_pdb_flag st_log c5_c6_flag warning_pdb_flag missing_types];
        rewrite ?count_events_snoc.
      * rewrite Ha. change (is_alias_warning (WarningPrint _)) with false.
        cbn [is_alias_warning]. lia.
      * rewrite Hsw, ?Ew. change (is_snapshot_warning (WarningPrint _)) with true.
        cbn [is_snapshot_warning]. cbv iota. lia.
      * split; [done|]. intros _.
        change (is_snapshot_write (WritePdb _)) with true. cbv iota. lia.
      * intros n. rewrite !count_events_snoc, Hnf. change (is_not_found_warning _ _ (WarningPrint _)) with false.
        cbn [is_not_found_warning]. lia.
Qed.

Lemma bind_type_log tag pt st st' out :
  bind_type tag pt st = (st', out) ->
  st_log st' = st_log st /\ c5_c6_flag st' = c5_c6_flag st /\
  warning_pdb_flag st' = warning_pdb_flag st /\ missing_types st' = missing_types st /\
  particle_types (st_sys st') = particle_types (st_sys st).
Proof.
  unfold bind_type, update_particle. intros H.
  destruct (particles (st_sys st) !! tag); simplify_eq; done.
Qed.

Lemma flags_agree_ext st st' :
  st_log st' = st_log st -> c5_c6_flag st' = c5_c6_flag st ->
  warning_pdb_flag st' = warning_pdb_flag st -> missing_types st' = missing_types st ->
  flags_agree st -> flags_agree st'.
Proof. intros Hl H1 H2 H3 [Ha Hsw Hw Hnf]. split; rewrite ?Hl, ?H1, ?H2, ?H3; done. Qed.

Lemma bind_copy_flags tag pt st st' out :
  flags_agree st -> bind_copy tag pt st = (st', out) -> flags_agree st'.
Proof.
  intros Hf. unfold bind_copy. destruct pt as [|pt0 ?]; [intros ?; by simplify_eq|].
  intros (Hl & H1 & H2 & H3 & _)%bind_type_log.
  by apply (flags_agree_ext st).
Qed.

Lemma type_row_flags f st fields st' out :
  flags_agree st -> type_row types f st fields = (st', out) -> flags_agree st'.
Proof.
  intros Hf H. unfold type_row in H.
  destruct (fields !! 1%nat) as [f1|]; [|by simplify_eq].
  destruct (int_of_str f1) as [tag|]; [|by simplify_eq].
  destruct (last_item fields) as [name|]; [|by simplify_eq].
  destruct (get name (particle_types (st_sys st))) as [|pt0 ?].
  2:{ apply bind_type_log in H as (Hl & H1 & H2 & H3 & _).
      by apply (flags_agree_ext st). }
  destruct f as [ff|].
  2:{ simplify_eq. destruct Hf as [Ha Hsw Hw Hnf].
      split; [| | |intros n]; rewrite ?count_emit; cbn; rewrite ?Nat.add_0_r; done. }
  unfold type_from_forcefield in H.
  destruct (substitute_or_snapshot _ _ _ _ _) as [st2 pt2] eqn:E2.
  eapply bind_copy_flags; [|exact H].
  eapply substitute_or_snapshot_flags; [|exact E2].
  by apply note_missing_flags.
Qed.

Lemma type_loop_flags f lines : forall st st' out,
  flags_agree st -> type_loop types f st lines = (st', out) -> flags_agree st'.
Proof.
  induction lines as [|line rest IH]; intros st st' out Hf H; simpl in H; [by simplify_eq|].
  destruct (split line) as [|f0 fs]; [by simplify_eq|].
  destruct (String.eqb f0 "ATOM"); [|by simplify_eq].
  destruct (type_row types f st (f0 :: fs)) as [st1 o1] eqn:Er.
  apply type_row_flags in Er; [|done].
  destruct o1 as [[]| |]; [by eapply IH| |]; by simplify_eq.
Qed.


Lemma get_nil name reg : get name reg = [] <-> name ∉ names reg.
Proof.
  unfold get, names. induction reg as [|pt reg IH]; simpl.
  - split; [intros _; apply not_elem_of_nil|done].
  - rewrite filter_cons, not_elem_of_cons. destruct (decide (pt_name pt = name)) as [He|Hne].
    + split; [done|]. intros [Hn _]. congruence.
    + rewrite IH. split; [intros ?; split; [congruence|done]|by intros [_ ?]].
Qed.

Lemma get_names name reg pt : pt ∈ get name reg -> pt_name pt = name /\ pt ∈ reg.
Proof. unfold get. intros [? ?]%list_elem_of_filter. done. Qed.

Section Rows.
Variable s0 : System.
Variable ff : Forcefield.

Definition reg_inv (st : TypingState) : Prop :=
  exists extra, particle_types (st_sys st) = particle_types s0 ++ extra /\
                forall n, n ∈ names extra -> n ∈ names (ff_particle_types ff).

Lemma reg_inv_names st n :
  reg_inv st -> n ∉ names (ff_particle_types ff) ->
  (n ∉ names (particle_types (st_sys st)) <-> n ∉ names (particle_types s0)).
Proof.
  intros (extra & -> & Hsub) Hn. unfold names in *. rewrite map_app, not_elem_of_app.
  split; [by intros [? _]|]. intros ?; split; [done|]. intros ?%Hsub. done.
Qed.

Lemma bind_type_particles tag pt st st' out :
  bind_type tag pt st = (st', out) ->
  forall t, t <> tag -> particles (st_sys st') !! t = particles (st_sys st) !! t.
Proof.
  unfold bind_type, update_particle. intros H t Ht.
  destruct (particles (st_sys st) !! tag); simplify_eq; [|done].
  simpl. by rewrite lookup_insert_ne.
Qed.

Lemma note_missing_facts name pt st :
  let st' := note_missing types name pt st in
  st_sys st' = st_sys st /\ warning_pdb_flag st' = warning_pdb_flag st /\
  c5_c6_flag st' = c5_c6_flag st /\
  missing_types st ⊆ missing_types st' /\
  (pt = [] -> name ∈ missing_types st') /\
  count_events is_snapshot_write (st_log st') = count_events is_snapshot_write (st_log st).
Proof.
  unfold note_missing. destruct pt as [|pt0 pt]; cbn [length Nat.eqb andb]; [|done].
  case_bool_decide as Hm; cbn [negb]; [done|].
  cbn [add_missing emit st_sys warning_pdb_flag c5_c6_flag missing_types st_log].
  rewrite count_events_snoc. cbn [is_snapshot_write].
  split_and!; try done.
  { apply union_subseteq_r. }
  intros _. apply elem_of_union_l, elem_of_singleton. done.
Qed.

Lemma substitute_or_snapshot_facts name pt st st' pt' :
  substitute_or_snapshot types ff name pt st = (st', pt') ->
  st_sys st' = st_sys st /\ missing_types st' = missing_types st /\
  (forall p, p ∈ pt' -> p ∈ ff_particle_types ff \/ p ∈ pt) /\
  count_events is_snapshot_write (st_log st') =
    (count_events is_snapshot_write (st_log st)
     + if negb (is_alias types name) && (length pt =? 0)%nat then 1 else 0)%nat /\
  (negb (is_alias types name) && (length pt =? 0)%nat = true -> pt' = []).
Proof.
  unfold substitute_or_snapshot. fold (is_alias types name).
  destruct (is_alias types name); cbn [negb andb].
  - destruct (negb (c5_c6_flag st)); intros ?; simplify_eq.
    + cbn [set_c5_c6_flag emit st_sys missing_types st_log]. rewrite count_events_snoc.
      cbn [is_snapshot_write]. split_and!; try done; try lia.
      intros p Hp%get_names. left. tauto.
    + split_and!; try done; try lia; tauto.
  - destruct (length pt =? 0)%nat eqn:El; intros ?; simplify_eq.
    + apply Nat.eqb_eq, nil_length_inv in El as ->.
      destruct (negb (warning_pdb_flag st));
        cbn [set_warning_pdb_flag emit st_sys missing_types st_log];
        rewrite !count_events_snoc; change (is_snapshot_write (WritePdb _)) with true;
        cbn [is_snapshot_write]; split_and!; try done; try lia; tauto.
    + split_and!; try done; try lia; tauto.
Qed.

Lemma type_row_returned st fields st' :
  reg_inv st ->
  type_row types (Some ff) st fields = (st', Returned ()) ->
  exists tag name,
    fields !! 1%nat ≫= int_of_str = Some tag /\ last_item fields = Some name /\
    reg_inv st' /\ missing_types st ⊆ missing_types st' /\
    if is_missing_name types s0 ff name
    then st_sys st' = st_sys st /\ name ∈ missing_types st' /\
         count_events is_snapshot_write (st_log st')
         = S (count_events is_snapshot_write (st_log st))
    else count_events is_snapshot_write (st_log st')
         = count_events is_snapshot_write (st_log st) /\
         forall t, t <> tag ->
           particles (st_sys st') !! t = particles (st_sys st) !! t.
Proof.
  intros Hinv H. unfold type_row in H.
  destruct (fields !! 1%nat) as [f1|]; [|by simplify_eq]. cbn [mbind option_bind].
  destruct (int_of_str f1) as [tag|]; [|by simplify_eq].
  destruct (last_item fields) as [name|]; [|by simplify_eq].
  exists tag, name. split; [done|]. split; [done|].
  destruct (get name (particle_types (st_sys st))) as [|pt0 ?] eqn:Eg.
  - unfold type_from_forcefield in H.
    set (pt := get name (ff_particle_types ff)) in *.
    destruct (note_missing_facts name pt st) as (Hs1 & _ & _ & Hm1 & Hin1 & Hc1).
    set (st1 := note_missing types name pt st) in *.
    destruct (substitute_or_snapshot types ff name pt st1) as [st2 pt2] eqn:E2.
    destruct (substitute_or_snapshot_facts _ _ _ _ _ E2) as (Hs2 & Hm2 & Hpt2 & Hc2 & Hnil).
    unfold is_missing_name.
    assert (Hreg : bool_decide (name ∉ names (particle_types s0))
                   && bool_decide (name ∉ names (ff_particle_types ff))
                   = (length pt =? 0)%nat).
    { apply get_nil in Eg. destruct (length pt =? 0)%nat eqn:El.
      - apply Nat.eqb_eq, nil_length_inv, get_nil in El.
        rewrite (bool_decide_eq_true_2 _ El), andb_true_r.
        apply bool_decide_eq_true_2. by apply (reg_inv_names st).
      - apply andb_false_iff. right. apply bool_decide_eq_false_2.
        intros Hn%get_nil. unfold pt in El. by rewrite Hn in El. }
    rewrite Hreg, andb_comm.
    destruct (negb (is_alias types name) && (length pt =? 0)%nat) eqn:Ecase.
    + rewrite (Hnil eq_refl) in H. cbn in H. simplify_eq.
      split_and!.
      * destruct Hinv as (extra & Hx & ?). exists extra. by rewrite Hs2, Hs1.
      * by rewrite Hm2.
      * by rewrite Hs2.
      * rewrite Hm2. apply Hin1. apply andb_true_iff in Ecase as [_ El].
        by apply Nat.eqb_eq, nil_length_inv in El.
      * rewrite Hc2, Hc1. lia.
    + unfold bind_copy in H. destruct pt2 as [|p0 pt2].
      * simplify_eq. split_and!.
        -- destruct Hinv as (extra & Hx & ?). exists extra. by rewrite Hs2, Hs1.
        -- by rewrite Hm2.
        -- rewrite Hc2, Hc1. lia.
        -- intros t _. by rewrite Hs2, Hs1.
      * pose proof (bind_type_log _ _ _ _ _ H) as (Hl & _ & _ & Hm3 & Hr3).
        pose proof (bind_type_particles _ _ _ _ _ H) as Hp3.
        cbn in Hl, Hm3, Hr3, Hp3. split_and!.
        -- destruct Hinv as (extra & Hx & Hsub). exists (extra ++ [p0]).
           rewrite Hr3, Hs2, Hs1, Hx. unfold add. rewrite <-(assoc_L (++)). split; [done|].
           intros n. unfold names. rewrite map_app, elem_of_app. intros [?|Hn]; [by apply Hsub|].
           apply list_elem_of_singleton in Hn as ->. apply list_elem_of_fmap_2.
           destruct (Hpt2 p0) as [?|Hp]; [left|done|]. by apply get_names in Hp as [_ ?].
        -- by rewrite Hm3, Hm2.
        -- rewrite Hl, Hc2, Hc1. lia.
        -- intros t Ht. by rewrite Hp3, Hs2, Hs1.
  - pose proof (bind_type_log _ _ _ _ _ H) as (Hl & _ & _ & Hm3 & Hr3).
    pose proof (bind_type_particles _ _ _ _ _ H) as Hp3.
    assert (is_missing_name types s0 ff name = false) as ->.
    { unfold is_missing_name.
      destruct (bool_decide (name ∉ names (ff_particle_types ff))) eqn:Ef;
        [|by rewrite andb_false_r].
      apply bool_decide_eq_true in Ef.
      rewrite (bool_decide_eq_false_2 (name ∉ names (particle_types s0))); [done|].
      rewrite <-(reg_inv_names st) by done. intros Hn%get_nil. by rewrite Hn in Eg. }
    split_and!.
    + destruct Hinv as (extra & Hx & ?). exists extra. by rewrite Hr3.
    + by rewrite Hm3.
    + by rewrite Hl.
    + done.
Qed.


Lemma type_loop_returned lines : forall st st',
  reg_inv st ->
  type_loop types (Some ff) st lines = (st', Returned ()) ->
  let missing := filter (fun row => is_missing_row types s0 ff row = true) (atom_block lines) in
  missing_types st ⊆ missing_types st' /\
  count_events is_snapshot_write (st_log st')
  = (count_events is_snapshot_write (st_log st) + length missing)%nat /\
  (forall n, n ∈ omap row_type_name missing -> n ∈ missing_types st') /\
  (forall t, (forall row, row ∈ atom_block lines -> row_tag row = Some t ->
                          is_missing_row types s0 ff row = true) ->
             particles (st_sys st') !! t = particles (st_sys st) !! t).
Proof.
  induction lines as [|line rest IH]; intros st st' Hinv H; simpl in H; [done|].
  cbn [atom_block]. unfold is_atom_row.
  destruct (split line) as [|f0 fs] eqn:Es; [done|].
  destruct (String.eqb f0 "ATOM") eqn:Ea.
  2:{ simplify_eq. cbn. split_and!; try done; try lia. intros n Hn. by apply elem_of_nil in Hn. }
  destruct (type_row types (Some ff) st (f0 :: fs)) as [st1 o1] eqn:Er.
  destruct o1 as [[]| |]; [|by simplify_eq..].
  destruct (type_row_returned _ _ _ Hinv Er)
    as (tag & name & Htag & Hname & Hinv1 & Hsub & Hcase).
  destruct (IH _ _ Hinv1 H) as (Hsub' & Hcount & Hnames & Hframe).
  assert (Hrow : is_missing_row types s0 ff line = is_missing_name types s0 ff name).
  { unfold is_missing_row, row_type_name. by rewrite Es, Hname. }
  assert (Hrt : row_tag line = Some tag).
  { unfold row_tag. by rewrite Es. }
  rewrite filter_cons. rewrite Hrow.
  destruct (is_missing_name types s0 ff name) eqn:Em.
  - destruct Hcase as (Hs & Hin & Hc).
    rewrite decide_True by done. cbn [length].
    split_and!.
    + by etrans.
    + rewrite Hcount, Hc. lia.
    + intros n (row & [->|Hin']%elem_of_cons & Hrn)%list_elem_of_omap.
      * unfold row_type_name in Hrn. rewrite Es, Hname in Hrn. simplify_eq.
        by apply Hsub'.
      * apply Hnames, list_elem_of_omap. eauto.
    + intros t Ht. rewrite Hframe, Hs; [done|].
      intros row Hr. apply Ht. by apply elem_of_cons; right.
  - destruct Hcase as (Hc & Hp).
    rewrite decide_False by done.
    split_and!.
    + by etrans.
    + rewrite Hcount, Hc. done.
    + done.
    + intros t Ht. rewrite Hframe.
      * apply Hp. intros ->. 
        specialize (Ht line (list_elem_of_here _ _) Hrt). congruence.
      * intros row Hr. apply Ht. by apply elem_of_cons; right.
Qed.

End Rows.

Lemma initial_flags_agree s :
  flags_agree
    (mkTypingState s false false ∅
       [WritePdb "pysimm.tmp.pdb"; Antechamber (antechamber_cl exec "-at" types)]).
Proof.
  split; cbn [st_log c5_c6_flag warning_pdb_flag missing_types]; try done.
  - split; [|done]. intros H. exfalso. revert H. apply Nat.lt_irrefl.
Qed.

(** C8 (amended). When [get_forcefield_types] returns, Missing_Types.pdb has
    been written once for every row of the ATOM block whose type is absent
    from the system registry and from the fallback force field and is no
    deprecated alias (always under that one name); the warning announcing
    the file has been printed once if there is such a row and never
    otherwise; the not-found warning has been printed once for each distinct
    missing name; and a particle that only such rows list is left as it
    was. *)
Theorem missing_type_snapshot_per_particle s ff ac st :
  get_forcefield_types exec s types (Some ff) ac = (st, Returned ()) ->
  let missing :=
    filter (fun row => is_missing_row types s ff row = true) (atom_block (drop 2 ac)) in
  count_events is_snapshot_write (st_log st) = length missing /\
  count_events is_snapshot_warning (st_log st)
  = (if bool_decide (missing = []) then 0 else 1)%nat /\
  (forall n, n ∈ omap row_type_name missing ->
             count_events (is_not_found_warning n types) (st_log st) = 1%nat) /\
  (forall n, (count_events (is_not_found_warning n types) (st_log st) <= 1)%nat) /\
  (forall t, (forall row, row ∈ atom_block (drop 2 ac) -> row_tag row = Some t ->
                          is_missing_row types s ff row = true) ->
             particles (st_sys st) !! t = particles s !! t).
Proof.
  unfold get_forcefield_types. intros H.
  pose proof (type_loop_flags _ _ _ _ _ (initial_flags_agree s) H) as [_ Hsw Hw Hnf].
  assert (Hinv : reg_inv s ff
            (mkTypingState s false false ∅
               [WritePdb "pysimm.tmp.pdb"; Antechamber (antechamber_cl exec "-at" types)])).
  { exists []. cbn. rewrite app_nil_r. split; [done|]. intros n Hn. by apply elem_of_nil in Hn. }
  destruct (type_loop_returned s ff _ _ _ Hinv H) as (_ & Hc & Hn & Hp).
  cbn [st_log st_sys] in Hc, Hp. change (count_events is_snapshot_write _) with 0%nat in Hc at 2.
  cbn zeta. split_and!.
  - rewrite Hc. done.
  - rewrite Hsw. destruct (warning_pdb_flag st) eqn:Ew.
    + rewrite bool_decide_eq_false_2; [done|]. intros Hnil. rewrite Hnil in Hc.
      cbn in Hc. assert (0 < count_events is_snapshot_write (st_log st))%nat; [|lia].
      by apply Hw.
    + rewrite bool_decide_eq_true_2; [done|]. apply nil_length_inv.
      destruct (decide (0 < count_events is_snapshot_write (st_log st))%nat) as [Hpos|Hz].
      * apply Hw in Hpos. congruence.
      * lia.
  - intros n Hin%Hn. rewrite Hnf. by rewrite bool_decide_eq_true_2.
  - intros n. rewrite Hnf. case_bool_decide; lia.
  - done.
Qed.


End Typing.

(** The deprecated-alias warning is printed at most once in a run. *)
Lemma alias_warning_at_most_once exec s types f ac :
  (count_events is_alias_warning
     (st_log (get_forcefield_types exec s types f ac).1) <= 1)%nat.
Proof.
  destruct (get_forcefield_types exec s types f ac) as [st out] eqn:E.
  unfold get_forcefield_types in E.
  apply type_loop_flags in E as [Ha _ _ _]; [|apply initial_flags_agree].
  simpl. rewrite Ha. destruct (c5_c6_flag st); lia.
Qed.

(** Once the alias flag is set, a further c5/c6 row that neither registry
    resolves returns without touching the system: the substitution by c3 sits
    under the print-once guard. *)
Lemma alias_row_after_first_is_skipped types ff st tag name fields :
  c5_c6_flag st = true ->
  is_alias types name = true ->
  get name (particle_types (st_sys st)) = [] ->
  get name (ff_particle_types ff) = [] ->
  fields !! 1%nat ≫= int_of_str = Some tag ->
  last_item fields = Some name ->
  exists st', type_row types (Some ff) st fields = (st', Returned ()) /\
              st_sys st' = st_sys st.
Proof.
  intros Hflag Halias Hs Hf Htag Hname. unfold type_row.
  destruct (fields !! 1%nat) as [f1|]; [|done]. cbn in Htag.
  rewrite Htag, Hname, Hs. unfold type_from_forcefield. rewrite Hf.
  destruct (note_missing_facts types name [] st) as (Hs1 & _ & Hc1 & _).
  unfold substitute_or_snapshot. fold (is_alias types name).
  rewrite Halias, Hc1, Hflag. cbn. eauto.
Qed.

(** C3 (the code departs from it). Under "gaff2", with a force field that
    has c3 but no c6, two particles are reported as c6: the first is bound to
    c3, the second is left without a type; the alias warning is printed
    once. *)
Theorem deprecated_alias_binds_first_particle_only :
  typing_of_two_c6.2 = Returned () /\
  p_type <$> particles (st_sys typing_of_two_c6.1) !! 1 = Some (Some c3_type) /\
  p_type <$> particles (st_sys typing_of_two_c6.1) !! 2 = Some None /\
  count_events is_alias_warning (st_log typing_of_two_c6.1) = 1%nat.
Proof. vm_compute. done. Qed.

(** C8 as stated fails: two particles share a type that is missing
    everywhere, and Missing_Types.pdb is written twice. *)
Lemma snapshot_written_once_fails :
  ~ (forall exec s types ff ac st,
       get_forcefield_types exec s types (Some ff) ac = (st, Returned ()) ->
       filter (fun row => is_missing_row types s ff row = true)
              (atom_block (drop 2 ac)) <> [] ->
       count_events is_snapshot_write (st_log st) = 1%nat).
Proof.
  intros H.
  specialize (H "antechamber" three_particles "gaff" gaff2_without_c6
                ac_two_missing typing_of_two_missing.1).
  assert (count_events is_snapshot_write (st_log typing_of_two_missing.1) = 2%nat)
    as Htwo by (vm_compute; reflexivity).
  rewrite H in Htwo; [discriminate| |].
  - vm_compute. reflexivity.
  - vm_compute. discriminate.
Qed.

Lemma missing_type_snapshot_per_particle_witness :
  get_forcefield_types "antechamber" three_particles "gaff"
    (Some gaff2_without_c6) ac_two_missing
  = (typing_of_two_missing.1, Returned ()) /\
  count_events is_snapshot_write (st_log typing_of_two_missing.1) = 2%nat /\
  count_events is_snapshot_warning (st_log typing_of_two_missing.1) = 1%nat.
Proof.
  assert (Hrun : get_forcefield_types "antechamber" three_particles "gaff"
                   (Some gaff2_without_c6) ac_two_missing
                 = (typing_of_two_missing.1, Returned ()))
    by (vm_compute; reflexivity).
  split; [exact Hrun|].
  destruct (missing_type_snapshot_per_particle _ _ _ _ _ _ Hrun) as (Hw & Hsw & _).
  split; [rewrite Hw | rewrite Hsw]; vm_compute; reflexivity.
Defined.

Lemma calc_charges_sets_listed_charges_only_witness :
  calc_charges sample_float "antechamber" three_particles "bcc" true
    ac_two_charges []
  = (charges_of_two_rows.1.1, charges_of_two_rows.1.2, charges_of_two_rows.2) /\
  particles charges_of_two_rows.1.1 !! 3 = particles three_particles !! 3 /\
  (charges_of_two_rows.2 = Returned () ->
   exists c p, listed_charge sample_float (atom_block (drop 2 ac_two_charges)) 2 = Some c /\
               particles three_particles !! 2 = Some p /\
               particles charges_of_two_rows.1.1 !! 2 = Some (set_charge c p)).
Proof.
  assert (Er : calc_charges sample_float "antechamber" three_particles "bcc" true
                 ac_two_charges []
               = (charges_of_two_rows.1.1, charges_of_two_rows.1.2,
                  charges_of_two_rows.2)).
  { unfold charges_of_two_rows. by destruct (calc_charges _ _ _ _ _ _ _) as [[??]?]. }
  split; [exact Er|].
  destruct (calc_charges_sets_listed_charges_only _ _ _ _ _ _ _ _ _ _ Er)
    as (_ & Hframe & _ & Hset).
  split.
  - apply Hframe. vm_compute. intros H. repeat (apply elem_of_cons in H as [H|H]; [discriminate|]).
    by apply elem_of_nil in H.
  - intros Hout. apply (Hset Hout). vm_compute.
    apply elem_of_cons; right. apply elem_of_cons; by left.
Defined.

End AmberProofs.



(** ** Properties of pysimm/apps/mc_md.py *)

Module McMdProofs.
Import Py PyProofs McMd.

#[local] Arguments path_join : simpl never.
#[local] Arguments str : simpl never.

(** *** The restart scan *)


Lemma str_head_digit i : 0 <= i -> exists c s, str i = String c s /\ is_digit c = true.
Proof.
  intros Hi. pose proof (str_all_digits i Hi) as Hd. pose proof (str_nonempty i) as Hn.
  destruct (str i) as [|c s]; [done|]. cbn in Hd. apply andb_true_iff in Hd as [Hc _].
  eauto.
Qed.

Lemma re_match_lmps_name i : 0 <= i -> re_match_digits (lmps_name i) = Some (str i).
Proof.
  intros Hi. unfold re_match_digits, lmps_name.
  change ".before_md.lmps" with (String "." "before_md.lmps").
  rewrite leading_digits_app; [|by apply str_all_digits|done].
  pose proof (str_nonempty i). by destruct (str i).
Qed.

Lemma not_hidden_digits i s : 0 <= i -> is_hidden (str i +:+ s) = false.
Proof.
  intros (c & r & -> & Hc)%str_head_digit. unfold is_hidden.
  change (String c r +:+ s) with (String c (r +:+ s)). cbn [String.prefix].
  destruct (ascii_dec "." c) as [<-|]; [by cbv in Hc|done].
Qed.

Lemma glob_lmps_name i : 0 <= i -> glob_match "*.before_md.lmps" (lmps_name i) = true.
Proof.
  intros Hi. unfold glob_match, lmps_name. rewrite not_hidden_digits by done.
  change (is_hidden "*.before_md.lmps") with false. cbn [orb negb andb].
  by apply fnmatch_star.
Qed.

(** The scan settles on the highest index found. *)
Lemma scan_checkpoints_max k found : forall l0,
  Forall (fun f => exists i, 0 <= i <= k /\ f = lmps_name i) found ->
  l0 <= k -> (l0 = k \/ lmps_name k ∈ found) ->
  scan_checkpoints found l0 = Returned k.
Proof.
  induction found as [|f found IH]; intros l0 Hall Hl Hk.
  - destruct Hk as [->|Hin]; [done|]. by apply elem_of_nil in Hin.
  - apply Forall_cons in Hall as [(i & Hi & ->) Hall]. cbn.
    rewrite re_match_lmps_name, int_of_digits_str by lia.
    apply IH; [done|lia|].
    destruct Hk as [->|[Heq|Hin]%elem_of_cons]; [left; lia| |by right].
    left. unfold lmps_name in Heq. apply PyProofs.string_app_inv_tail, str_inj in Heq. lia.
Qed.

Lemma purge_disjoint k name :
  0 <= k ->
  glob_match (str (k + 1) +:+ ".*") name = true ->
  glob_match (str k +:+ ".md*") name = true -> False.
Proof.
  intros Hk [_ H1]%andb_true_iff [_ H2]%andb_true_iff.
  apply (leading_digits_of_match _ "*") in H1; [|apply str_all_digits; lia].
  apply (leading_digits_of_match _ "md*") in H2; [|by apply str_all_digits].
  rewrite H1 in H2. apply str_inj in H2. lia.
Qed.

Lemma to_purge_NoDup k d : 0 <= k -> NoDup d -> NoDup (to_purge k d).
Proof.
  intros Hk Hd. unfold to_purge, glob. apply NoDup_app. split_and!.
  - by apply NoDup_filter.
  - intros name [H1 _]%list_elem_of_filter [H2 _]%list_elem_of_filter.
    by eapply purge_disjoint.
  - by apply NoDup_filter.
Qed.

Lemma for_each_remove folder names : forall w,
  NoDup names -> names ⊆ w_dir w ->
  exists d',
    for_each names (remove folder) w
    = (mkWorld d' (w_environ w) (w_type_names w)
               (w_trace w ++ map (fun n => Remove (path_join folder n)) names),
       Returned ()) /\
    forall n, n ∈ d' <-> n ∈ w_dir w /\ n ∉ names.
Proof.
  induction names as [|n names IH]; intros w Hnd Hsub.
  - exists (w_dir w). cbn. rewrite app_nil_r. split; [by destruct w|].
    intros n. split; [intros ?; split; [done|apply not_elem_of_nil]|by intros [? _]].
  - apply NoDup_cons in Hnd as [Hn Hnd].
    cbn [for_each]. unfold bind, remove at 1.
    rewrite bool_decide_eq_true_2 by (apply Hsub; left).
    match goal with |- context [for_each names (remove folder) ?w1] =>
      destruct (IH w1 Hnd) as (d' & -> & Hd') end.
    { intros m Hm. cbn. apply list_elem_of_filter. split; [|apply Hsub; by right].
      intros ->. done. }
    exists d'. cbn. split; [by rewrite <-app_assoc|].
    intros m. rewrite Hd'. cbn. rewrite list_elem_of_filter, not_elem_of_cons. tauto.
Qed.

(** *** The phases of an iteration *)

Lemma dump_of_stages fmt mdp rigid pairs : forall it,
  dump_of (stages_from fmt mdp rigid it pairs) = [].
Proof.
  induction pairs as [|[t lng] pairs IH]; intros it; [done|]. simpl.
  unfold dump_of in *. rewrite omap_app, IH, app_nil_r.
  unfold stage. destruct (has_rigid rigid); done.
Qed.

Lemma md_job_ok fmt mdp rigid m n dump :
  md_settings_ok mdp = true ->
  exists job, md_job fmt mdp rigid m n dump = Returned job /\ dump_of job = [dump].
Proof.
  unfold md_settings_ok, md_job, md_description, output_settings.
  destruct (py_int (dict_get mdp "dump")) as [freq| |]; [|done..].
  destruct (dict_get mdp "timestep") as [| | | | |ts| |] eqn:Et.
  6:{ intros [lens Hl]%bool_decide_eq_true. rewrite Hl. eexists. split; [done|].
      unfold dump_of. rewrite !omap_app. fold dump_of. cbn.
      fold (dump_of (stages_from fmt mdp rigid 0 (zip ts lens))).
      rewrite dump_of_stages. by destruct (has_rigid rigid). }
  all: intros _; eexists; (split; [done|]); unfold dump_of; rewrite !omap_app;
       by destruct (has_rigid rigid).
Qed.

Section Phases.
Variable py : PyVersion.
Variable make_iterable : PyVal -> PyVal.
Variable format_val : PyVal -> string.
Variable E : Engines.
Variable su : Setup.
Variable np : PyVal.

(** How two worlds compare when only events were added in between. *)
Record extends (w w' : World) (evs : list Event) : Prop := mkExtends {
  ext_trace : w_trace w' = w_trace w ++ evs;
  ext_types : w_type_names w' = w_type_names w;
}.

Lemma extends_refl w : extends w w [].
Proof. split; [by rewrite app_nil_r|done]. Qed.

Lemma extends_trans w1 w2 w3 e1 e2 :
  extends w1 w2 e1 -> extends w2 w3 e2 -> extends w1 w3 (e1 ++ e2).
Proof.
  intros [H1 H2] [H3 H4]. split; [by rewrite H3, H1, app_assoc|congruence].
Qed.

Lemma for_each_create names : forall w,
  exists d, for_each names create w
            = (mkWorld d (w_environ w) (w_type_names w) (w_trace w), Returned ()).
Proof.
  induction names as [|n names IH]; intros w; simpl.
  - exists (w_dir w). by destruct w.
  - unfold bind, create at 1. destruct (IH (mkWorld (dir_add n (w_dir w)) (w_environ w) (w_type_names w) (w_trace w))) as [d Hd].
    rewrite Hd. eauto.
Qed.

Lemma run_prefix_cases st w :
  exists evs p q,
    run_prefix np st w
    = (mkWorld (w_dir w) (w_environ w) (w_type_names w) (w_trace w ++ evs), Returned (p, q))
    /\ md_threads evs = [] /\ md_results evs = [] /\ mc_launches evs = []
    /\ footprint evs = fp_empty.
Proof.
  unfold run_prefix. destruct (is_None np).
  - exists [Print serial_msg]. do 2 eexists. split; [reflexivity|done].
  - destruct (is_None (prefix st)).
    + exists [Print mpiexec_msg]. do 2 eexists. split; [reflexivity|done].
    + exists []. do 2 eexists. rewrite app_nil_r. split; [by destruct w|done].
Qed.

Lemma launch_environ st sim_sst job w w' out :
  launch E np st sim_sst job w = (w', out) ->
  w_environ w' = w_environ w /\ w_type_names w' = w_type_names w /\
  exists evs res,
    w_trace w' = w_trace w ++ evs /\
    md_threads evs = [w_environ w !! OMP_NUM_THREADS] /\
    md_results evs = [res] /\
    mc_launches evs = [] /\ jobs_added evs = [] /\ resyncs evs = [] /\
    match out with
    | Returned (sys, _) => res = Some sys
    | Raised _ => res = None
    | Exited _ => False
    end.
Proof.
  unfold launch, bind, get_world.
  destruct (run_prefix_cases st w) as (evs & p & q & -> & Ht & Hr & Hm & Hfp).
  assert (Hj : jobs_added evs = []) by (by injection Hfp).
  assert (Hy : resyncs evs = []) by (by injection Hfp).
  unfold emit at 1. cbn [w_dir w_environ w_type_names w_trace].
  destruct (sim_run E sim_sst job np p) as [sys|] eqn:Er; cbn [of_option ret raise].
  - match goal with |- context [for_each ?n create ?w0] =>
      destruct (for_each_create n w0) as [d ->] end.
    unfold ret. intros ?; simplify_eq. cbn. split_and!; try done.
    do 2 eexists. split; [by rewrite <-app_assoc|].
    unfold md_threads, md_results, mc_launches, jobs_added, resyncs in *.
    rewrite !omap_app, Ht, Hr, Hm, Hj, Hy. done.
  - intros ?; simplify_eq. cbn. split_and!; try done.
    do 2 eexists. split; [by rewrite <-app_assoc|].
    unfold md_threads, md_results, mc_launches, jobs_added, resyncs in *.
    rewrite !omap_app, Ht, Hr, Hm, Hj, Hy. done.
Qed.


Ltac mstep :=
  repeat match goal with
         | |- context [for_each ?n create ?w0] =>
             let d := fresh "d" in
             destruct (for_each_create n w0) as [d ->]
         end;
  unfold bind, ret, raise, exit, emit, get_world, of_option, of_outcome,
         setenv in *;
  cbn [w_dir w_environ w_type_names w_trace fst snd] in *;
  repeat match goal with
         | |- context [for_each ?n create ?w0] =>
             let d := fresh "d" in
             destruct (for_each_create n w0) as [d ->]
         end;
  try (progress (unfold create at 1; cbn [w_dir w_environ w_type_names w_trace fst snd] in *)).

Ltac trace_solve :=
  unfold md_threads, md_results, mc_launches, jobs_added, resyncs in *;
  rewrite ?omap_app; cbn [omap list_omap];
  repeat match goal with H : omap _ _ = _ |- _ => rewrite H end;
  cbn [app].

Lemma md_phase_environ st w w' out :
  md_phase format_val E su np st w = (w', out) ->
  (forall name, name <> OMP_NUM_THREADS ->
                w_environ w' !! name = w_environ w !! name) /\
  w_type_names w' = w_type_names w /\
  exists evs,
    w_trace w' = w_trace w ++ evs /\
    mc_launches evs = [] /\ jobs_added evs = [] /\ resyncs evs = [] /\
    Forall (fun t => t = Some "1") (md_threads evs) /\
    (forall sys, md_results evs = [Some sys] ->
       w_environ w' !! OMP_NUM_THREADS
       = Some (default "1" (w_environ w !! OMP_NUM_THREADS))) /\
    (md_results evs = [None] -> w_environ w' !! OMP_NUM_THREADS = Some "1") /\
    match out with
    | Returned st' => md_results evs = [sim st'] /\ is_Some (sim st') /\
                      l st' = l st + 1 /\ is_restart st' = is_restart st
    | _ => True
    end.
Proof.
  unfold md_phase. mstep.
  destruct (head (run_queue st)) as [[job0 res0]|]; mstep.
  2:{ intros ?; simplify_eq. cbn. split_and!; try done.
      - intros name Hn. by rewrite lookup_insert_ne.
      - eexists. split; [by rewrite <-!app_assoc|]. cbn. done. }
  destruct (md_job _ _ _ _ _ _) as [job|c|e]; mstep.
  2,3: intros ?; simplify_eq; cbn; split_and!; try done;
       [intros name Hn; by rewrite lookup_insert_ne|];
       eexists; (split; [by rewrite <-!app_assoc|]); cbn; done.
  destruct (launch _ _ _ _ _ _) as [w2 o2] eqn:El.
  apply launch_environ in El as (Henv & Hty & evs & res & Htr & Hth & Hres & Hmc & Hja & Hrs & Ho).
  cbn [w_dir w_environ w_type_names w_trace] in *.
  rewrite lookup_insert_eq in Hth.
  destruct o2 as [[sys pfx]|c|e]; [subst res| |subst res].
  - destruct (last (run_queue st)) as [[j r]|]; mstep;
      [destruct r as [r|]; mstep|]; intros ?; simplify_eq; cbn;
      (split_and!; [intros name Hn; by rewrite lookup_insert_ne, Henv, lookup_insert_ne
                   |done|]);
      eexists; rewrite Htr;
      (split; [rewrite <-!app_assoc; reflexivity|]);
      trace_solve;
      split_and!; try done; try (by repeat constructor);
      try (intros; by rewrite lookup_insert_eq); eauto.
  - done.
  - intros ?; simplify_eq. split_and!.
    + intros name Hn. by rewrite Henv, lookup_insert_ne.
    + done.
    + eexists. rewrite Htr. split; [rewrite <-!app_assoc; reflexivity|].
      trace_solve. split_and!; try done.
      * by repeat constructor.
      * intros _. by rewrite Henv, lookup_insert_eq.
Qed.


Ltac fp_simpl :=
  unfold footprint, fp_app, fp_empty, jobs_added, mc_launches, resyncs,
    lammps_written, lammps_read, xyz_written, md_logs, md_dumps;
  cbn [omap list_omap flat_map app fp_jobs fp_launches fp_resyncs
       fp_lammps_written fp_lammps_read fp_xyz_written fp_md_logs fp_md_dumps].

Lemma footprint_app a b : footprint (a ++ b) = fp_app (footprint a) (footprint b).
Proof.
  unfold footprint, fp_app, jobs_added, mc_launches, resyncs, lammps_written,
    lammps_read, xyz_written, md_logs, md_dumps. cbn.
  by rewrite !omap_app, flat_map_app.
Qed.

Lemma md_results_app a b : md_results (a ++ b) = md_results a ++ md_results b.
Proof. apply omap_app. Qed.

Lemma run_name_new_job st w : run_name_of (new_job su st w) = gcmc_run_name (l st).
Proof. unfold run_name_of, new_job, named_mcp. cbn. by rewrite lookup_insert_eq. Qed.

Lemma mc_phase_any st w w' out :
  mc_phase E su st w = (w', out) ->
  w_environ w' = w_environ w /\ w_type_names w' = w_type_names w /\
  exists evs,
    w_trace w' = w_trace w ++ evs /\
    jobs_added evs = [(gcmc_run_name (l st), gcmc_props_name (l st))] /\
    mc_launches evs = (if is_restart st then [] else [gcmc_run_name (l st)]) /\
    resyncs evs = (if is_restart st then [gcmc_run_name (l st)] else []) /\
    md_results evs = [] /\ md_threads evs = [] /\
    (forall job, AddGcmc job ∈ evs -> job = new_job su st w) /\
    match out with
    | Returned st' => l st' = l st /\ is_restart st' = false
    | _ => True
    end.
Proof.
  unfold mc_phase. mstep. destruct (is_restart st); mstep.
  - destruct (upd_simulation E (w_dir w) _) as [res|]; mstep.
    2:{ intros ?; simplify_eq; cbn. split_and!; try done.
        eexists. split; [rewrite <-!app_assoc; reflexivity|]. cbn.
        rewrite run_name_new_job. split_and!; try done.
        intros job [?|[?|?%elem_of_nil]%elem_of_cons]%elem_of_cons; by simplify_eq. }
    destruct (read_lammps E (w_dir w) _) as [tmp|]; mstep.
    2:{ intros ?; simplify_eq; cbn. split_and!; try done.
        eexists. split; [rewrite <-!app_assoc; reflexivity|]. cbn.
        rewrite run_name_new_job. split_and!; try done.
        intros job Hj. repeat (apply elem_of_cons in Hj as [Hj|Hj]; [by simplify_eq|]).
        by apply elem_of_nil in Hj. }
    destruct (resync _ _) as [sys|]; mstep;
      intros ?; simplify_eq; cbn; (split_and!; try done);
      eexists; (split; [rewrite <-!app_assoc; reflexivity|]); cbn;
      rewrite run_name_new_job; (split_and!; try done);
      intros job Hj; repeat (apply elem_of_cons in Hj as [Hj|Hj]; [by simplify_eq|]);
      by apply elem_of_nil in Hj.
  - destruct (css_run E (css_system st) _) as [[sys res]|]; mstep.
    2:{ intros ?; simplify_eq; cbn. split_and!; try done.
        eexists. split; [rewrite <-!app_assoc; reflexivity|]. cbn.
        rewrite !run_name_new_job. split_and!; try done.
        intros job Hj. repeat (apply elem_of_cons in Hj as [Hj|Hj]; [by simplify_eq|]).
        by apply elem_of_nil in Hj. }
    mstep. mstep.
    cbn. intros ?; simplify_eq; cbn. split_and!; try done.
    eexists. split; [rewrite <-!app_assoc; reflexivity|]. cbn.
    rewrite !run_name_new_job. split_and!; try done.
    intros job Hj. repeat (apply elem_of_cons in Hj as [Hj|Hj]; [by simplify_eq|]).
    by apply elem_of_nil in Hj.
Qed.


Hypothesis css_run_total : forall sys job, is_Some (css_run E sys job).
Hypothesis sim_run_total : forall s job n p, is_Some (sim_run E s job n p).
Hypothesis md_ok : md_settings_ok (su_mdp su) = true.

(** The queue holds a job, and the job queued last carries its results. *)
Definition queue_ready (st : Loop) : Prop :=
  exists q job res, run_queue st = q ++ [(job, Some res)].

Lemma queue_ready_head st :
  queue_ready st -> exists job res, head (run_queue st) = Some (job, res).
Proof.
  intros (q & job & res & ->). destruct q as [|[j r] q]; cbn; eauto.
Qed.

Lemma queue_ready_last st :
  queue_ready st -> exists job res, last (run_queue st) = Some (job, Some res).
Proof. intros (q & job & res & ->). rewrite last_snoc. eauto. Qed.

Lemma mc_phase_launched st w :
  is_restart st = false ->
  exists w' st' evs,
    mc_phase E su st w = (w', Returned st') /\
    w_trace w' = w_trace w ++ evs /\
    w_environ w' = w_environ w /\ w_type_names w' = w_type_names w /\
    footprint evs
    = mkFootprint [(gcmc_run_name (l st), gcmc_props_name (l st))]
        [gcmc_run_name (l st)] [] [lmps_fname (sim_folder su) (l st)] [] [] [] [] /\
    md_results evs = [] /\
    l st' = l st /\ is_restart st' = false /\ sim st' = sim st /\
    prefix st' = prefix st /\ queue_ready st'.
Proof.
  intros Hr. unfold mc_phase. mstep. rewrite Hr. mstep.
  destruct (css_run_total (css_system st) (new_job su st w)) as [[sys res] ->].
  mstep. mstep. do 3 eexists. split; [reflexivity|]. cbn.
  split; [rewrite <-!app_assoc; reflexivity|].
  split_and!; try done.
  - unfold footprint. cbn. by rewrite !run_name_new_job.
  - by do 3 eexists.
Qed.

Lemma mc_phase_resumed st w res tmp sys :
  is_restart st = true ->
  upd_simulation E (w_dir w) (new_job su st w) = Some res ->
  read_lammps E (w_dir w) (lmps_fname (sim_folder su) (l st)) = Some tmp ->
  resync (tot_sst res) tmp = Some sys ->
  exists w' st' evs,
    mc_phase E su st w = (w', Returned st') /\
    w_trace w' = w_trace w ++ evs /\
    w_environ w' = w_environ w /\ w_type_names w' = w_type_names w /\
    w_dir w' = w_dir w /\
    footprint evs
    = mkFootprint [(gcmc_run_name (l st), gcmc_props_name (l st))]
        [] [gcmc_run_name (l st)] [] [lmps_fname (sim_folder su) (l st)] [] [] [] /\
    md_results evs = [] /\
    l st' = l st /\ is_restart st' = false /\ sim st' = sim st /\
    prefix st' = prefix st /\ css_system st' = sys /\ queue_ready st'.
Proof.
  intros Hr Hu Hl Hs. unfold mc_phase. mstep. rewrite Hr. mstep.
  rewrite Hu. mstep. rewrite Hl. mstep. rewrite Hs. mstep.
  do 3 eexists. split; [reflexivity|]. cbn.
  split; [rewrite <-!app_assoc; reflexivity|].
  split_and!; try done.
  - unfold footprint. cbn. by rewrite !run_name_new_job.
  - by do 3 eexists.
Qed.

Lemma md_phase_ok st w :
  queue_ready st ->
  exists w' st' evs sys,
    md_phase format_val E su np st w = (w', Returned st') /\
    w_trace w' = w_trace w ++ evs /\
    w_type_names w' = w_type_names w /\
    footprint evs
    = mkFootprint [] [] [] [path_join (sim_folder su) (lmps_name (l st))] []
        [xyz_fname (sim_folder su) (l st)]
        [path_join (sim_folder su) (md_log_name (l st))]
        [path_join (sim_folder su) (md_dump_name (l st))] /\
    md_results evs = [Some sys] /\ sim st' = Some sys /\
    l st' = l st + 1 /\ is_restart st' = is_restart st /\ queue_ready st' /\
    WriteLammps (path_join (sim_folder su) (lmps_name (l st))) (css_system st) ∈ evs.
Proof.
  intros Hq.
  destruct (queue_ready_head _ Hq) as (job0 & res0 & Hhead).
  destruct (queue_ready_last _ Hq) as (jobl & resl & Hlast).
  unfold md_phase. mstep. rewrite Hhead. mstep.
  match goal with |- context [md_job ?f ?m ?r ?a ?b ?d] =>
    destruct (md_job_ok f m r a b d md_ok) as (job & -> & Hdump) end.
  mstep. unfold launch. mstep.
  match goal with |- context [run_prefix np st ?w0] =>
    destruct (run_prefix_cases st w0) as (pevs & p & q & -> & Ht & Hres & Hmc & Hfp) end.
  mstep.
  match goal with |- context [sim_run E ?a ?b ?c ?d] =>
    destruct (sim_run_total a b c d) as [sys Hsim]; rewrite Hsim end.
  mstep. mstep. rewrite Hlast. mstep.
  do 4 eexists. split; [reflexivity|]. cbn.
  split; [rewrite <-!app_assoc; reflexivity|].
  split_and!; try done.
  - unfold footprint, fp_empty in Hfp. injection Hfp as H1 H2 H3 H4 H5 H6 H7 H8.
    unfold footprint, jobs_added, mc_launches, resyncs, lammps_written,
      lammps_read, xyz_written, md_logs, md_dumps in *.
    rewrite !omap_app, !flat_map_app, H1, H2, H3, H4, H5, H6, H7, H8.
    cbn [omap list_omap flat_map app]. rewrite Hdump. done.
  - rewrite !md_results_app, Hres. done.
  - apply elem_of_cons; right. apply elem_of_cons; left. reflexivity.
Qed.


Lemma iteration_launched st w :
  is_restart st = false ->
  exists w' st' evs sys,
    iteration format_val E su np st w = (w', Returned st') /\
    w_trace w' = w_trace w ++ evs /\
    w_type_names w' = w_type_names w /\
    footprint evs = launched_iteration (sim_folder su) (l st) /\
    md_results evs = [Some sys] /\ sim st' = Some sys /\
    l st' = l st + 1 /\ is_restart st' = false.
Proof.
  intros Hr.
  destruct (mc_phase_launched st w Hr)
    as (w1 & st1 & e1 & Hmc & Ht1 & _ & Hty1 & Hf1 & Hm1 & Hl1 & Hr1 & _ & _ & Hq1).
  destruct (md_phase_ok st1 w1 Hq1)
    as (w2 & st2 & e2 & sys & Hmd & Ht2 & Hty2 & Hf2 & Hm2 & Hs2 & Hl2 & Hr2 & _ & _).
  exists w2, st2, (e1 ++ e2), sys. unfold iteration, bind. rewrite Hmc, Hmd.
  split_and!; try done.
  - by rewrite Ht2, Ht1, app_assoc.
  - congruence.
  - rewrite footprint_app, Hf1, Hf2, Hl1. done.
  - by rewrite md_results_app, Hm1, Hm2.
  - lia.
  - congruence.
Qed.

Lemma while_loop_launched fuel : forall st w,
  is_restart st = false ->
  l st + Z.of_nat fuel = su_n_iter su + 1 ->
  exists w' st' evs,
    while_loop format_val E su np fuel st w = (w', Returned st') /\
    w_trace w' = w_trace w ++ evs /\
    w_type_names w' = w_type_names w /\
    footprint evs
    = fp_concat (map (launched_iteration (sim_folder su))
                     (seqZ (l st) (Z.of_nat fuel))) /\
    length (md_results evs) = fuel /\
    match fuel with
    | O => sim st' = sim st
    | S _ => exists sys, sim st' = Some sys /\
                         last (md_results evs) = Some (Some sys)
    end.
Proof.
  induction fuel as [|fuel IH]; intros st w Hr Hl.
  - exists w, st, []. cbn. rewrite app_nil_r. done.
  - cbn [while_loop]. rewrite (proj2 (Z.ltb_lt _ _)) by lia.
    destruct (iteration_launched st w Hr)
      as (w1 & st1 & e1 & sys1 & Hit & Ht1 & Hty1 & Hf1 & Hm1 & Hs1 & Hl1 & Hr1).
    destruct (IH st1 w1 Hr1) as (w2 & st2 & e2 & Hwl & Ht2 & Hty2 & Hf2 & Hlen & Hsim);
      [lia|].
    exists w2, st2, (e1 ++ e2). unfold bind. rewrite Hit, Hwl.
    split_and!; try done.
    + by rewrite Ht2, Ht1, app_assoc.
    + congruence.
    + rewrite footprint_app, Hf1, Hf2, Hl1.
      rewrite (seqZ_cons (l st)) by lia. cbn.
      by replace (Z.pred (Z.of_nat (S fuel))) with (Z.of_nat fuel) by lia.
    + rewrite md_results_app, length_app, Hm1, Hlen. done.
    + rewrite md_results_app, Hm1. destruct fuel as [|fuel'].
      * exists sys1. apply nil_length_inv in Hlen. rewrite Hlen. split; [congruence|done].
      * destruct Hsim as (sys & Hs & Hlast). exists sys. split; [done|].
        rewrite last_app, Hlast. done.
Qed.

End Phases.

(** *** INIT, and whole runs *)

Lemma filter_remove_all (names : list string) n (d : list string) :
  filter (fun m => m ∉ names) (filter (fun m => m <> n) d)
  = filter (fun m => m ∉ n :: names) d.
Proof.
  induction d as [|x d IH]; [done|].
  rewrite !filter_cons. destruct (decide (x <> n)) as [Hx|Hx].
  - rewrite filter_cons. destruct (decide (x ∉ names)) as [Hn|Hn].
    + rewrite decide_True by (by apply not_elem_of_cons). by rewrite IH.
    + rewrite decide_False by (intros [_ ?]%not_elem_of_cons; done). done.
  - rewrite decide_False; [done|]. intros [? _]%not_elem_of_cons. done.
Qed.

Lemma filter_not_in_nil (d : list string) : filter (fun n => n ∉ []) d = d.
Proof.
  induction d as [|x d IH]; [done|].
  rewrite filter_cons_True by apply not_elem_of_nil. by rewrite IH.
Qed.

Lemma for_each_remove_exact folder names : forall w,
  NoDup names -> names ⊆ w_dir w ->
  for_each names (remove folder) w
  = (mkWorld (filter (fun n => n ∉ names) (w_dir w)) (w_environ w) (w_type_names w)
             (w_trace w ++ map (fun n => Remove (path_join folder n)) names),
     Returned ()).
Proof.
  induction names as [|n names IH]; intros w Hnd Hsub.
  - cbn. rewrite app_nil_r. destruct w as [d e t tr]. cbn. do 2 f_equal.
    by rewrite filter_not_in_nil.
  - apply NoDup_cons in Hnd as [Hn Hnd].
    cbn [for_each]. unfold bind, remove at 1.
    rewrite bool_decide_eq_true_2 by (apply Hsub; left).
    rewrite IH; [|done|].
    2:{ intros m Hm. cbn. apply list_elem_of_filter. split; [|apply Hsub; by right].
        intros ->. done. }
    cbn. rewrite filter_remove_all, <-(assoc_L (++)). done.
Qed.


Lemma to_purge_subset k d : to_purge k d ⊆ d.
Proof.
  unfold to_purge, glob. intros n [H|H]%elem_of_app;
    by apply list_elem_of_filter in H as [_ ?].
Qed.

Lemma restart_scan_off folder w : restart_scan folder false w = (w, Returned 1).
Proof. done. Qed.

Lemma restart_scan_resume folder w k :
  NoDup (w_dir w) -> 1 <= k -> lmps_name k ∈ w_dir w ->
  (forall name, name ∈ w_dir w -> glob_match "*.before_md.lmps" name = true ->
                exists i, 1 <= i <= k /\ name = lmps_name i) ->
  restart_scan folder true w
  = (mkWorld (purged k (w_dir w)) (w_environ w) (w_type_names w)
             (w_trace w ++ purge_events folder k (w_dir w)),
     Returned k).
Proof.
  intros Hnd Hk Hin Hall. unfold restart_scan, bind, get_world, of_outcome.
  rewrite (scan_checkpoints_max k).
  - rewrite for_each_remove_exact; [done| |apply to_purge_subset].
    apply to_purge_NoDup; [lia|done].
  - apply Forall_forall. intros f [Hm Hf]%list_elem_of_filter.
    destruct (Hall f Hf Hm) as (i & Hi & ->). exists i. split; [lia|done].
  - done.
  - right. apply list_elem_of_filter. split; [|done]. apply glob_lmps_name. lia.
Qed.

Lemma restart_scan_no_checkpoint folder w :
  NoDup (w_dir w) -> glob "*.before_md.lmps" (w_dir w) = [] ->
  restart_scan folder true w
  = (mkWorld (purged 1 (w_dir w)) (w_environ w) (w_type_names w)
             (w_trace w ++ purge_events folder 1 (w_dir w)),
     Returned 1).
Proof.
  intros Hnd Hg. unfold restart_scan, bind, get_world, of_outcome.
  rewrite Hg. cbn [scan_checkpoints].
  rewrite for_each_remove_exact; [done| |apply to_purge_subset].
  apply to_purge_NoDup; [lia|done].
Qed.

Lemma footprint_purge folder k d :
  footprint (purge_events folder k d) = fp_empty /\
  md_results (purge_events folder k d) = [] /\
  removed (purge_events folder k d) = map (path_join folder) (to_purge k d).
Proof.
  unfold purge_events. induction (to_purge k d) as [|n names (IH1 & IH2 & IH3)]; [done|].
  split_and!.
  - change (map _ (n :: names)) with ([Remove (path_join folder n)] ++ map (fun n => Remove (path_join folder n)) names).
    rewrite footprint_app, IH1. done.
  - cbn. done.
  - cbn. f_equal. done.
Qed.

Section Init.
Variable py : PyVersion.
Variable make_iterable : PyVal -> PyVal.
Variable E : Engines.

Lemma setup_fixed_cases fixed_sst w :
  exists evs fixed',
    setup_fixed E fixed_sst w
    = (mkWorld (w_dir w) (w_environ w) (w_type_names w) (w_trace w ++ evs),
       Returned fixed') /\
    footprint evs = fp_empty /\ md_results evs = [] /\ removed evs = [].
Proof.
  unfold setup_fixed. destruct (truthy fixed_sst).
  - destruct fixed_sst; (eexists [_]; eexists; split; [reflexivity|done]).
  - exists [], fixed_sst. rewrite app_nil_r. split; [by destruct w|done].
Qed.

Lemma init_ok gas_sst fixed_sst mc_props md_props prefix kwargs w w1 l0
    gases CHEM_POT mcp mdp :
  restart_scan (default "results" (kw_sim_folder kwargs))
               (default false (kw_restart kwargs)) w = (w1, Returned l0) ->
  accepts py make_iterable gas_sst mc_props md_props gases CHEM_POT mcp mdp ->
  exists evs fixed',
    init py make_iterable E gas_sst fixed_sst mc_props md_props prefix kwargs w
    = (mkWorld (w_dir w1) (w_environ w1)
               (rename_gas_types gases (w_type_names w1)) (w_trace w1 ++ evs),
       Returned (mkSetup (default 10 (kw_mcmd_niter kwargs))
                         (default "results" (kw_sim_folder kwargs))
                         gases CHEM_POT mdp
                         (mkLoop l0 (default false (kw_restart kwargs))
                                 (new_cassandra E fixed') [] mcp None prefix))) /\
    footprint evs = fp_empty /\ md_results evs = [] /\ removed evs = [].
Proof.
  intros Hscan Hacc. unfold init, bind. rewrite Hscan.
  destruct (setup_fixed_cases fixed_sst w1) as (evs & fixed' & -> & Hf & Hm & Hr).
  match goal with |- context [setup_gases _ _ _ ?w0] =>
    destruct (Hacc w0) as (-> & _ & _) end.
  unfold emit at 1. cbn [w_dir w_environ w_type_names w_trace].
  match goal with |- context [setup_mc _ _ ?w0] =>
    destruct (Hacc w0) as (_ & -> & _) end.
  match goal with |- context [setup_md _ ?w0] =>
    destruct (Hacc w0) as (_ & _ & ->) end.
  unfold rename_step, bind, get_world, set_type_names, ret.
  cbn [w_dir w_environ w_type_names w_trace].
  exists (evs ++ [NewCassandra fixed']), fixed'. rewrite <-(assoc_L (++)).
  split; [done|]. rewrite footprint_app, Hf. unfold md_results, removed in *.
  rewrite !omap_app, Hm, Hr. done.
Qed.

End Init.

Section Runs.
Variable py : PyVersion.
Variable make_iterable : PyVal -> PyVal.
Variable format_val : PyVal -> string.
Variable E : Engines.

Hypothesis css_run_total : forall sys job, is_Some (css_run E sys job).
Hypothesis sim_run_total : forall s job n p, is_Some (sim_run E s job n p).

Lemma loop_launched su np st w :
  md_settings_ok (su_mdp su) = true ->
  is_restart st = false ->
  exists w' st' evs,
    loop format_val E su np st w = (w', Returned st') /\
    w_trace w' = w_trace w ++ evs /\
    w_type_names w' = w_type_names w /\
    footprint evs
    = fp_concat (map (launched_iteration (su_sim_folder su))
                     (seqZ (l st) (su_n_iter su + 1 - l st))) /\
    length (md_results evs) = Z.to_nat (su_n_iter su + 1 - l st) /\
    (su_n_iter su + 1 - l st <= 0 -> sim st' = sim st) /\
    (0 < su_n_iter su + 1 - l st ->
     exists sys, sim st' = Some sys /\ last (md_results evs) = Some (Some sys)).
Proof.
  intros Hmd Hr. unfold loop, turns.
  destruct (decide (su_n_iter su + 1 - l st <= 0)) as [Hn|Hn].
  - replace (Z.to_nat _) with 0%nat by lia. cbn.
    exists w, st, []. rewrite app_nil_r, seqZ_nil by lia. split_and!; try done. lia.
  - destruct (while_loop_launched format_val E su np css_run_total sim_run_total Hmd
                (Z.to_nat (su_n_iter su + 1 - l st)) st w Hr)
      as (w' & st' & evs & Hwl & Htr & Hty & Hfp & Hlen & Hsim); [lia|].
    exists w', st', evs. rewrite Z2Nat.id in Hfp by lia.
    split_and!; try done; try lia. intros _.
    destruct (Z.to_nat _) eqn:Ez; [lia|]. done.
Qed.


Theorem fresh_run_launches_every_iteration
    gas_sst fixed_sst mc_props md_props np prefix kwargs w gases CHEM_POT mcp mdp :
  accepts py make_iterable gas_sst mc_props md_props gases CHEM_POT mcp mdp ->
  md_settings_ok mdp = true ->
  default false (kw_restart kwargs) = false ->
  let N := default 10 (kw_mcmd_niter kwargs) in
  let folder := default "results" (kw_sim_folder kwargs) in
  exists w' r evs,
    mc_md py make_iterable format_val E gas_sst fixed_sst mc_props md_props
          np prefix kwargs w = (w', Returned r) /\
    w_trace w' = w_trace w ++ evs /\
    footprint evs = fp_concat (map (launched_iteration folder) (seqZ 1 N)) /\
    length (md_results evs) = Z.to_nat N /\
    (1 <= N -> exists sys, r = Some sys /\ last (md_results evs) = Some (Some sys)) /\
    (N <= 0 -> r = None /\ footprint evs = fp_empty /\ md_results evs = []).
Proof.
  intros Hacc Hmd Hr N folder.
  destruct (init_ok py make_iterable E gas_sst fixed_sst mc_props md_props prefix
              kwargs w w 1 gases CHEM_POT mcp mdp) as (e0 & fixed' & Hinit & Hf0 & Hm0 & _);
    [by rewrite Hr|done|].
  rewrite Hr in Hinit.
  match type of Hinit with _ = (?w1, Returned ?su) =>
    destruct (loop_launched su np (su_loop su) w1 Hmd eq_refl)
      as (w' & st' & evs & Hloop & Htr & _ & Hfp & Hlen & Hnone & Hsome) end.
  cbn [su_loop su_n_iter su_sim_folder l sim w_trace] in Htr, Hfp, Hlen, Hnone, Hsome.
  replace (default 10 (kw_mcmd_niter kwargs) + 1 - 1) with N in * by (unfold N; lia).
  exists w', (sim st'), (e0 ++ evs). unfold mc_md, bind. rewrite Hinit, Hloop.
  split_and!.
  - done.
  - by rewrite Htr, (assoc_L (++)).
  - rewrite footprint_app, Hf0, Hfp. by destruct (fp_concat _).
  - by rewrite md_results_app, Hm0, length_app, Hlen.
  - intros HN. destruct Hsome as (sys & Hs & Hl); [lia|]. exists sys.
    by rewrite md_results_app, Hm0.
  - intros HN. split_and!.
    + by apply Hnone.
    + rewrite footprint_app, Hf0, Hfp, seqZ_nil by lia. done.
    + apply nil_length_inv. rewrite md_results_app, Hm0, length_app, Hlen. cbn. lia.
Qed.


Lemma iteration_resumed su np st w res tmp sys :
  md_settings_ok (su_mdp su) = true ->
  is_restart st = true ->
  upd_simulation E (w_dir w) (new_job su st w) = Some res ->
  read_lammps E (w_dir w) (lmps_fname (sim_folder su) (l st)) = Some tmp ->
  resync (tot_sst res) tmp = Some sys ->
  exists w' st' evs out,
    iteration format_val E su np st w = (w', Returned st') /\
    w_trace w' = w_trace w ++ evs /\
    w_type_names w' = w_type_names w /\
    footprint evs = resumed_iteration (sim_folder su) (l st) /\
    md_results evs = [Some out] /\ sim st' = Some out /\
    l st' = l st + 1 /\ is_restart st' = false /\
    WriteLammps (lmps_fname (sim_folder su) (l st)) sys ∈ evs.
Proof.
  intros Hmd Hr Hu Hl Hs.
  destruct (mc_phase_resumed E su st w res tmp sys Hr Hu Hl Hs)
    as (w1 & st1 & e1 & Hmc & Ht1 & _ & Hty1 & _ & Hf1 & Hm1 & Hl1 & Hr1 & _ & _ & Hc1 & Hq1).
  destruct (md_phase_ok format_val E su np sim_run_total Hmd st1 w1 Hq1)
    as (w2 & st2 & e2 & out & Hph & Ht2 & Hty2 & Hf2 & Hm2 & Hs2 & Hl2 & Hr2 & _ & Hw).
  exists w2, st2, (e1 ++ e2), out. unfold iteration, bind. rewrite Hmc, Hph.
  split_and!; try done.
  - by rewrite Ht2, Ht1, (assoc_L (++)).
  - congruence.
  - rewrite footprint_app, Hf1, Hf2, Hl1. done.
  - by rewrite md_results_app, Hm1, Hm2.
  - lia.
  - congruence.
  - apply elem_of_app; right. by rewrite Hl1, Hc1 in Hw.
Qed.

Theorem restart_resumes_at_last_checkpoint
    gas_sst fixed_sst mc_props md_props np prefix kwargs w
    gases CHEM_POT mcp mdp k :
  accepts py make_iterable gas_sst mc_props md_props gases CHEM_POT mcp mdp ->
  md_settings_ok mdp = true ->
  kw_restart kwargs = Some true ->
  let N := default 10 (kw_mcmd_niter kwargs) in
  let folder := default "results" (kw_sim_folder kwargs) in
  let d' := purged k (w_dir w) in
  NoDup (w_dir w) -> 1 <= k <= N -> lmps_name k ∈ w_dir w ->
  (forall name, name ∈ w_dir w -> glob_match "*.before_md.lmps" name = true ->
                exists i, 1 <= i <= k /\ name = lmps_name i) ->
  (forall job, run_name_of job = gcmc_run_name k ->
               is_Some (upd_simulation E d' job)) ->
  is_Some (read_lammps E d' (lmps_fname folder k)) ->
  (forall job res tmp,
      upd_simulation E d' job = Some res ->
      read_lammps E d' (lmps_fname folder k) = Some tmp ->
      is_Some (resync (tot_sst res) tmp)) ->
  exists w' out evs,
    mc_md py make_iterable format_val E gas_sst fixed_sst mc_props md_props
          np prefix kwargs w = (w', Returned (Some out)) /\
    w_trace w' = w_trace w ++ purge_events folder k (w_dir w) ++ evs /\
    footprint evs
    = fp_app (resumed_iteration folder k)
             (fp_concat (map (launched_iteration folder) (seqZ (k + 1) (N - k)))) /\
    last (md_results evs) = Some (Some out) /\
    exists job res tmp sys,
      upd_simulation E d' job = Some res /\
      read_lammps E d' (lmps_fname folder k) = Some tmp /\
      resync (tot_sst res) tmp = Some sys /\
      WriteLammps (lmps_fname folder k) sys ∈ evs.
Proof.
  intros Hacc Hmd Hr N folder d' Hnd Hk Hin Hall Hupd Hread Hsync.
  pose proof (restart_scan_resume folder w k Hnd (proj1 Hk) Hin Hall) as Hscan.
  destruct (init_ok py make_iterable E gas_sst fixed_sst mc_props md_props prefix
              kwargs w
              (mkWorld (purged k (w_dir w)) (w_environ w) (w_type_names w)
                       (w_trace w ++ purge_events folder k (w_dir w)))
              k gases CHEM_POT mcp mdp) as (e0 & fixed' & Hinit & Hf0 & Hm0 & _);
    [by rewrite Hr|done|].
  rewrite Hr in Hinit. cbn [default w_dir w_environ w_type_names w_trace] in Hinit.
  fold folder N in Hinit.
  match type of Hinit with _ = (?a, Returned ?b) => set (w1 := a) in *; set (su := b) in * end.
  set (st0 := su_loop su).
  assert (Hname : run_name_of (new_job su st0 w1) = gcmc_run_name k)
    by apply run_name_new_job.
  destruct (Hupd _ Hname) as [res Hres]. destruct Hread as [tmp Htmp].
  destruct (Hsync _ _ _ Hres Htmp) as [sys Hsys].
  destruct (iteration_resumed su np st0 w1 res tmp sys Hmd eq_refl Hres Htmp Hsys)
    as (w2 & st2 & e1 & out1 & Hit & Ht1 & _ & Hf1 & Hm1 & Hs1 & Hl1 & Hr1 & Hw1).
  destruct (while_loop_launched format_val E su np css_run_total sim_run_total Hmd
              (Z.to_nat (N - k)) st2 w2 Hr1)
    as (w3 & st3 & e2 & Hwl & Ht2 & _ & Hf2 & Hlen & Hsim).
  { rewrite Hl1. cbn. lia. }
  assert (Hloop : loop format_val E su np st0 w1 = (w3, Returned st3)).
  { assert (Hl0 : l st0 = k) by reflexivity.
    assert (Hn0 : su_n_iter su = N) by reflexivity.
    unfold loop, turns. rewrite Hn0, Hl0.
    replace (Z.to_nat (N + 1 - k)) with (S (Z.to_nat (N - k))) by lia.
    cbn [while_loop]. rewrite Hn0, Hl0.
    rewrite (proj2 (Z.ltb_lt _ _)) by lia. unfold bind.
    by rewrite Hit, Hwl. }
  assert (exists out, sim st3 = Some out /\ last (md_results (e1 ++ e2)) = Some (Some out))
    as (out & Hout & Hlast).
  { rewrite md_results_app, Hm1. destruct (Z.to_nat (N - k)).
    - exists out1. apply nil_length_inv in Hlen. rewrite Hlen. split; [congruence|done].
    - destruct Hsim as (o & Ho & Hl). exists o. split; [done|]. by rewrite last_app, Hl. }
  exists w3, out, (e0 ++ e1 ++ e2). unfold mc_md, bind. rewrite Hinit.
  fold st0. rewrite Hloop.
  split_and!.
  - cbn. by rewrite Hout.
  - rewrite Ht2, Ht1. cbn [w1 w_trace]. by rewrite <-!(assoc_L (++)).
  - rewrite !footprint_app, Hf0, Hf1, Hf2, Hl1. cbn [su st0 su_loop l sim_folder su_sim_folder].
    rewrite Z2Nat.id by lia. by destruct (fp_app _ _).
  - rewrite md_results_app, Hm0. done.
  - exists (new_job su st0 w1), res, tmp, sys. split_and!; try done.
    apply elem_of_app; right. apply elem_of_app; by left.
Qed.

End Runs.

(** *** The stages of a multi-stage MD run *)

Section Stages.
Variable format_val : PyVal -> string.
Variable mdp : gmap string PyVal.
Variable rigid_mols : string.

Lemma stage_head it t lng :
  head (stage format_val mdp rigid_mols it t lng) = Some (Velocity "create").
Proof. done. Qed.

Lemma stage_unfix_rig_fix it t lng :
  Custom ("unfix rig_fix_" +:+ str (Z.of_nat it))
  ∈ stage format_val mdp rigid_mols it t lng.
Proof.
  unfold stage. apply elem_of_app; right. apply elem_of_app; right.
  apply elem_of_app; right. do 4 (apply elem_of_cons; right). apply elem_of_cons; by left.
Qed.

Lemma stage_without_rigid it t lng :
  has_rigid rigid_mols = false ->
  stage format_val mdp rigid_mols it t lng
  = [Velocity "create";
     AddMdMD (main_md mdp rigid_mols ("main_fix_" +:+ str (Z.of_nat it)) t);
     Custom ("fix        tether_fix_" +:+ str (Z.of_nat it)
             +:+ " matrix spring tether 30.0 0.0 0.0 0.0 0.0");
     Custom ("run " +:+ format_val lng +:+ nl);
     Custom ("unfix main_fix_" +:+ str (Z.of_nat it));
     Custom ("unfix rig_fix_" +:+ str (Z.of_nat it));
     Custom ("unfix tether_fix_" +:+ str (Z.of_nat it))].
Proof. unfold stage. by intros ->. Qed.

End Stages.

(** *** What INIT lets through *)

Lemma setup_gases_list_python2 mi vs w :
  mi (VList vs) = VList vs -> systems_of vs <> [] ->
  setup_gases Py2 mi (VList vs) w = (w, Returned (systems_of vs)).
Proof.
  intros Hmi Hs. unfold setup_gases, bind. cbn [truthy].
  destruct vs as [|v vs]; [done|]. cbn [length]. rewrite bool_decide_eq_false_2 by done.
  cbn [negb is_list_type of_outcome]. rewrite Hmi. cbn [py_iter of_option ret].
  by destruct (systems_of (v :: vs)).
Qed.

Lemma accepts_single_system py mi g mcp0 mdp n :
  mcp0 <> ∅ -> mdp <> ∅ ->
  truthy (mi (dict_get mcp0 "Chemical_Potential_Info")) = true ->
  py_len (mi (dict_get mcp0 "Chemical_Potential_Info")) = Some n ->
  accepts py mi (VSys g) (Some mcp0) (Some mdp) [g]
    (mi (dict_get mcp0 "Chemical_Potential_Info"))
    (<["Start_Type" := VDict [("species", start_species (replicate n 0))]]> mcp0) mdp.
Proof.
  intros Hmc Hmd Ht Hn w. split_and!.
  - done.
  - unfold setup_mc. rewrite bool_decide_eq_false_2 by done. rewrite Ht.
    unfold bind. rewrite Hn. done.
  - unfold setup_md. by rewrite bool_decide_eq_false_2.
Qed.

(** *** The names of the gases' types *)

Lemma gas_suffix_inj i j : gas_suffix i = gas_suffix j -> i = j.
Proof.
  unfold gas_suffix. intros H.
  change ("_g" +:+ str (Z.of_nat i + 1)) with (String "_" (String "g" (str (Z.of_nat i + 1)))) in H.
  change ("_g" +:+ str (Z.of_nat j + 1)) with (String "_" (String "g" (str (Z.of_nat j + 1)))) in H.
  injection H as H. apply str_inj in H. lia.
Qed.

Lemma string_app_inv_head (s t1 t2 : string) : s +:+ t1 = s +:+ t2 -> t1 = t2.
Proof.
  induction s as [|c s IH]; [done|].
  change (String c s +:+ t1) with (String c (s +:+ t1)).
  change (String c s +:+ t2) with (String c (s +:+ t2)).
  intros H. injection H as H. auto.
Qed.

Lemma foldl_alter_other (f : string -> string) pts : forall (h : gmap nat string) pt,
  pt ∉ pts -> foldl (fun h pt => alter f pt h) h pts !! pt = h !! pt.
Proof.
  induction pts as [|p pts IH]; intros h pt Hn; [done|].
  apply not_elem_of_cons in Hn as [Hp Hn]. cbn [foldl].
  rewrite IH by done. by rewrite lookup_alter_ne.
Qed.

Lemma foldl_alter_own (f : string -> string) pts : forall (h : gmap nat string) pt,
  NoDup pts -> pt ∈ pts ->
  foldl (fun h pt => alter f pt h) h pts !! pt = f <$> h !! pt.
Proof.
  induction pts as [|p pts IH]; intros h pt Hnd Hin.
  - by apply elem_of_nil in Hin.
  - apply NoDup_cons in Hnd as [Hp Hnd]. cbn [foldl].
    apply elem_of_cons in Hin as [->|Hin].
    + rewrite foldl_alter_other by done. by rewrite lookup_alter_eq.
    + rewrite IH by done. rewrite lookup_alter_ne; [done|]. by intros ->.
Qed.

Lemma rename_types_other gi g h pt :
  pt ∉ particle_types g -> rename_types gi g h !! pt = h !! pt.
Proof. apply foldl_alter_other. Qed.

Lemma rename_types_own gi g h pt :
  NoDup (particle_types g) -> pt ∈ particle_types g ->
  rename_types gi g h !! pt = (fun name => name +:+ gas_suffix gi) <$> h !! pt.
Proof. apply foldl_alter_own. Qed.

Lemma rename_gas_types_from_other gases : forall start h pt,
  pt ∉ flat_map particle_types gases ->
  rename_gas_types_from start gases h !! pt = h !! pt.
Proof.
  induction gases as [|g gases IH]; intros start h pt Hn; [done|].
  cbn in Hn. apply not_elem_of_app in Hn as [Hg Hn]. cbn [rename_gas_types_from].
  rewrite IH by done. by apply rename_types_other.
Qed.

Lemma rename_gas_types_from_own gases : forall start h i g pt,
  NoDup (flat_map particle_types gases) ->
  gases !! i = Some g -> pt ∈ particle_types g ->
  rename_gas_types_from start gases h !! pt
  = (fun name => name +:+ gas_suffix (start + i)) <$> h !! pt.
Proof.
  induction gases as [|g0 gases IH]; intros start h i g pt Hnd Hi Hpt; [done|].
  cbn in Hnd. apply NoDup_app in Hnd as (Hnd0 & Hdisj & Hnd).
  cbn [rename_gas_types_from]. destruct i as [|i]; cbn in Hi.
  - simplify_eq. rewrite rename_gas_types_from_other by auto.
    rewrite rename_types_own by done. by rewrite Nat.add_0_r.
  - rewrite (IH _ _ i g) by done.
    rewrite rename_types_other.
    + by replace (S start + i)%nat with (start + S i)%nat by lia.
    + intros Hin. apply (Hdisj pt Hin). apply list_elem_of_In, in_flat_map.
      exists g. split; [|by apply list_elem_of_In].
      apply list_elem_of_In. by eapply list_elem_of_lookup_2.
Qed.

(** *** Whatever the outcome *)

Lemma jobs_added_elem job evs :
  AddGcmc job ∈ evs -> (run_name_of job, job_props_file job) ∈ jobs_added evs.
Proof.
  intros H. unfold jobs_added. apply list_elem_of_omap. by exists (AddGcmc job).
Qed.

Lemma for_each_remove_any folder names : forall w w1 out,
  for_each names (remove folder) w = (w1, out) ->
  w_environ w1 = w_environ w /\ w_type_names w1 = w_type_names w /\
  exists evs, w_trace w1 = w_trace w ++ evs /\
    footprint evs = fp_empty /\ md_results evs = [] /\ md_threads evs = [].
Proof.
  induction names as [|n names IH]; intros w w1 out.
  - cbn. unfold ret. intros ?; simplify_eq. split_and!; try done. exists []. by rewrite app_nil_r.
  - cbn [for_each]. unfold bind, remove at 1. case_bool_decide.
    + intros (He & Ht & evs & Htr & Hf & Hm & Hth)%IH. cbn in He, Ht, Htr.
      split_and!; try done. exists (Remove (path_join folder n) :: evs).
      split; [by rewrite Htr, <-(assoc_L (++))|].
      change (Remove (path_join folder n) :: evs) with ([Remove (path_join folder n)] ++ evs).
      rewrite footprint_app, Hf. unfold md_results, md_threads in *.
      rewrite !omap_app, Hm, Hth. done.
    + intros ?; simplify_eq. split_and!; try done. exists []. by rewrite app_nil_r.
Qed.

Lemma restart_scan_any folder r w w1 out :
  restart_scan folder r w = (w1, out) ->
  w_environ w1 = w_environ w /\ w_type_names w1 = w_type_names w /\
  exists evs, w_trace w1 = w_trace w ++ evs /\
    footprint evs = fp_empty /\ md_results evs = [] /\ md_threads evs = [].
Proof.
  unfold restart_scan. destruct r; unfold ret.
  - unfold bind, get_world, of_outcome.
    destruct (scan_checkpoints _ _) as [l0| |].
    + destruct (for_each _ _ w) as [w2 o2] eqn:Hf.
      apply for_each_remove_any in Hf. destruct o2; intros ?; simplify_eq; done.
    + intros ?; simplify_eq. split_and!; try done. exists []. by rewrite app_nil_r.
    + intros ?; simplify_eq. split_and!; try done. exists []. by rewrite app_nil_r.
  - intros ?; simplify_eq. split_and!; try done. exists []. by rewrite app_nil_r.
Qed.

Section Whatever.
Variable py : PyVersion.
Variable make_iterable : PyVal -> PyVal.
Variable format_val : PyVal -> string.
Variable E : Engines.

Lemma init_cases gas_sst fixed_sst mc_props md_props prefix kwargs w w1 out
    gases CHEM_POT mcp mdp :
  accepts py make_iterable gas_sst mc_props md_props gases CHEM_POT mcp mdp ->
  init py make_iterable E gas_sst fixed_sst mc_props md_props prefix kwargs w = (w1, out) ->
  w_environ w1 = w_environ w /\
  exists evs, w_trace w1 = w_trace w ++ evs /\
    footprint evs = fp_empty /\ md_results evs = [] /\
    match out with
    | Returned su =>
        w_type_names w1 = rename_gas_types gases (w_type_names w) /\
        su_gases su = gases /\ su_mdp su = mdp /\
        su_n_iter su = default 10 (kw_mcmd_niter kwargs) /\
        su_sim_folder su = default "results" (kw_sim_folder kwargs) /\
        is_restart (su_loop su) = default false (kw_restart kwargs)
    | _ => w_type_names w1 = w_type_names w
    end.
Proof.
  intros Hacc Hinit.
  destruct (restart_scan (default "results" (kw_sim_folder kwargs))
              (default false (kw_restart kwargs)) w) as [w0 o0] eqn:Hscan.
  pose proof (restart_scan_any _ _ _ _ _ Hscan) as (He & Hty & e0 & Htr & Hf & Hm & _).
  destruct o0 as [l0|c|e].
  - destruct (init_ok py make_iterable E gas_sst fixed_sst mc_props md_props prefix
                kwargs w w0 l0 gases CHEM_POT mcp mdp Hscan Hacc)
      as (e1 & fixed' & Hi & Hf1 & Hm1 & _).
    rewrite Hi in Hinit. simplify_eq. cbn. split; [done|].
    exists (e0 ++ e1). rewrite Htr, <-(assoc_L (++)). split; [done|].
    rewrite footprint_app, Hf, Hf1, md_results_app, Hm, Hm1, Hty. done.
  - unfold init, bind in Hinit. rewrite Hscan in Hinit. simplify_eq.
    split; [done|]. by exists e0.
  - unfold init, bind in Hinit. rewrite Hscan in Hinit. simplify_eq.
    split; [done|]. by exists e0.
Qed.

Section Loop.
Variable su : Setup.
Variable np : PyVal.

Lemma iteration_any st w w' out :
  iteration format_val E su np st w = (w', out) ->
  w_type_names w' = w_type_names w /\
  exists evs, w_trace w' = w_trace w ++ evs /\
    (forall job, AddGcmc job ∈ evs -> job = new_job su st w) /\
    mc_launches evs = (if is_restart st then [] else [gcmc_run_name (l st)]) /\
    resyncs evs = (if is_restart st then [gcmc_run_name (l st)] else []) /\
    match out with
    | Returned st' => l st' = l st + 1 /\ is_restart st' = false
    | _ => True
    end.
Proof.
  unfold iteration, bind.
  destruct (mc_phase E su st w) as [w1 o1] eqn:Hmc.
  apply mc_phase_any in Hmc
    as (_ & Hty1 & e1 & Ht1 & Hj1 & Hl1 & Hr1 & _ & _ & Hjob & Ho1).
  destruct o1 as [st1|c|e].
  - destruct (md_phase format_val E su np st1 w1) as [w2 o2] eqn:Hmd.
    apply md_phase_environ in Hmd
      as (_ & Hty2 & e2 & Ht2 & Hl2 & Hj2 & Hr2 & _ & _ & _ & Ho2).
    intros ?; simplify_eq. split; [congruence|].
    exists (e1 ++ e2). split; [by rewrite Ht2, Ht1, (assoc_L (++))|].
    unfold mc_launches, resyncs in *. rewrite !omap_app, Hl1, Hl2, Hr1, Hr2, !app_nil_r.
    split_and!; try done.
    + intros job [Hin|Hin]%elem_of_app; [by apply Hjob|].
      apply jobs_added_elem in Hin. rewrite Hj2 in Hin. by apply elem_of_nil in Hin.
    + destruct out as [st2| |]; [|done..]. destruct Ho1 as [? ?].
      destruct Ho2 as (_ & _ & ? & ?). split; congruence.
  - intros ?; simplify_eq. split; [done|]. by exists e1.
  - intros ?; simplify_eq. split; [done|]. by exists e1.
Qed.

Lemma while_loop_any fuel : forall st w w' out,
  while_loop format_val E su np fuel st w = (w', out) ->
  w_type_names w' = w_type_names w /\
  exists evs, w_trace w' = w_trace w ++ evs /\
    (forall job, AddGcmc job ∈ evs ->
       job_species job = su_gases su /\
       job_type_names job = map (type_names_of (w_type_names w)) (su_gases su)) /\
    (forall n, n ∈ mc_launches evs ->
       exists i, l st + (if is_restart st then 1 else 0) <= i /\ n = gcmc_run_name i) /\
    resyncs evs
    = (if is_restart st && (l st <? su_n_iter su + 1) && negb (bool_decide (fuel = 0%nat))
       then [gcmc_run_name (l st)] else []).
Proof.
  induction fuel as [|fuel IH]; intros st w w' out.
  - cbn. unfold ret. intros ?; simplify_eq. split; [done|]. exists []. rewrite app_nil_r.
    split_and!; try done.
    + intros job []%elem_of_nil.
    + intros n []%elem_of_nil.
    + by rewrite andb_false_r.
  - cbn [while_loop]. destruct (l st <? su_n_iter su + 1) eqn:Hlt.
    2:{ unfold ret. intros ?; simplify_eq. split; [done|]. exists []. rewrite app_nil_r.
        split_and!; try done.
        + intros job []%elem_of_nil.
        + intros n []%elem_of_nil.
        + by rewrite andb_false_r. }
    unfold bind. destruct (iteration format_val E su np st w) as [w1 o1] eqn:Hit.
    apply iteration_any in Hit as (Hty1 & e1 & Ht1 & Hjob1 & Hl1 & Hr1 & Ho1).
    rewrite andb_true_r. cbn [negb bool_decide decide_rel]. rewrite andb_true_r.
    destruct o1 as [st1|c|e].
    + intros (Hty2 & e2 & Ht2 & Hjob2 & Hl2 & Hr2)%IH. destruct Ho1 as [Hls Hrs].
      split; [congruence|]. exists (e1 ++ e2).
      split; [by rewrite Ht2, Ht1, (assoc_L (++))|]. split_and!.
      * intros job [Hin|Hin]%elem_of_app.
        -- apply Hjob1 in Hin as ->. done.
        -- rewrite <-Hty1. by apply Hjob2.
      * intros n. unfold mc_launches in *. rewrite omap_app.
        intros [Hin|Hin]%elem_of_app.
        -- rewrite Hl1 in Hin. destruct (is_restart st); [by apply elem_of_nil in Hin|].
           apply list_elem_of_singleton in Hin. exists (l st). split; [lia|done].
        -- apply Hl2 in Hin as (i & Hi & ->). exists i. split; [|done].
           rewrite Hls, Hrs in Hi. destruct (is_restart st); lia.
      * unfold resyncs in *. rewrite omap_app, Hr1, Hr2, Hrs. cbn [andb].
        by rewrite app_nil_r.
    + intros ?; simplify_eq. split; [done|]. exists e1. split_and!; try done.
      * intros job ->%Hjob1. done.
      * intros n. rewrite Hl1. destruct (is_restart st); [by intros ?%elem_of_nil|].
        intros ->%list_elem_of_singleton. exists (l st). split; [lia|done].
    + intros ?; simplify_eq. split; [done|]. exists e1. split_and!; try done.
      * intros job ->%Hjob1. done.
      * intros n. rewrite Hl1. destruct (is_restart st); [by intros ?%elem_of_nil|].
        intros ->%list_elem_of_singleton. exists (l st). split; [lia|done].
Qed.

End Loop.
End Whatever.

End McMdProofs.
